(** * market-bot: the retrying Gemini client of [AI_marketing.py]

    A shallow embedding of [get_bot_response] (AI_marketing.py, lines 29-109):
    the construction of the request payload from the chat history, the
    duck-typed extraction of the answer text and of the grounding sources from
    the decoded JSON body, and the exponential-backoff retry loop with its two
    exception handlers. *)

From Stdlib Require Import ZArith String Ascii List Bool Lia.
From Stdlib Require Import Floats.SpecFloat Numbers.DecimalString.
From stdpp Require Import base option list strings gmap.
Import ListNotations.
Local Open Scope string_scope.
Local Open Scope Z_scope.
Set Warnings "-register-all".

(** ** Values decoded by [response.json()] *)

(** What [json.loads] produces: [None], [bool], [int], [float], [str], [list]
    and [dict] with [str] keys.  A [dict] is kept as its items in insertion
    order; looking a key up takes its first binding.  A [float] is kept as its
    IEEE-754 datum, of which only "is it zero" is ever inspected. *)
Inductive json : Type :=
| JNull
| JBool (b : bool)
| JInt (n : Z)
| JFloat (f : spec_float)
| JStr (s : string)
| JArr (items : list json)
| JObj (fields : list (string * json)).

(** The exceptions that can travel through the [try] block of the loop. *)
Inductive request_error : Type :=
| ConnectionError (detail : string)
| Timeout (detail : string)
| JSONDecodeError
| OtherRequestError (detail : string).

Inductive exn : Type :=
| RequestException (e : request_error)
      (* requests.exceptions.RequestException and its subclasses *)
| Exception (arg : json)
      (* [Exception(arg)], raised by the program itself *)
| IndexError
| KeyError
| AttributeError
| TypeError.

(** Only the first handler, [except requests.exceptions.RequestException],
    matches these. *)
Definition is_request_exception (e : exn) : bool :=
  match e with
  | RequestException _ => true
  | _ => false
  end.

(** A small error monad for code that may raise. *)
Inductive may_raise (A : Type) : Type :=
| Ok (a : A)
| Err (e : exn).
Arguments Ok {A} a.
Arguments Err {A} e.

Definition bind {A B : Type} (m : may_raise A) (k : A -> may_raise B) : may_raise B :=
  match m with
  | Ok a => k a
  | Err e => Err e
  end.

Notation "'let*' x ':=' m 'in' k" := (bind m (fun x => k))
  (at level 10, x name, m at level 100, k at level 200, only parsing).

(** ** Python's dynamic operations on decoded values *)

(** [bool(v)], as used by [not text], [x and y] and the comprehension filter. *)
Definition truthy (v : json) : bool :=
  match v with
  | JNull => false
  | JBool b => b
  | JInt n => negb (n =? 0)
  | JFloat (S754_zero _) => false
  | JFloat _ => true
  | JStr s => negb (String.eqb s "")
  | JArr items => match items with [] => false | _ :: _ => true end
  | JObj fields => match fields with [] => false | _ :: _ => true end
  end.

Fixpoint dict_lookup (fields : list (string * json)) (key : string) : option json :=
  match fields with
  | [] => None
  | (k, v) :: rest => if String.eqb k key then Some v else dict_lookup rest key
  end.

(** [v.get(key, default)]: only a [dict] has the method. *)
Definition py_get (v : json) (key : string) (default : json) : may_raise json :=
  match v with
  | JObj fields =>
      match dict_lookup fields key with
      | Some x => Ok x
      | None => Ok default
      end
  | _ => Err AttributeError
  end.

(** [v[0]]. *)
Definition py_index0 (v : json) : may_raise json :=
  match v with
  | JArr [] => Err IndexError
  | JArr (x :: _) => Ok x
  | JStr EmptyString => Err IndexError
  | JStr (String c _) => Ok (JStr (String c EmptyString))
  | JObj _ => Err KeyError          (* the keys of a decoded dict are strings *)
  | _ => Err TypeError
  end.

Fixpoint is_prefix (p s : string) : bool :=
  match p, s with
  | EmptyString, _ => true
  | String a p', String b s' => if Ascii.eqb a b then is_prefix p' s' else false
  | String _ _, EmptyString => false
  end.

Fixpoint is_substring (p s : string) : bool :=
  is_prefix p s ||
  match s with
  | EmptyString => false
  | String _ s' => is_substring p s'
  end.

Definition is_the_str (key : string) (v : json) : bool :=
  match v with
  | JStr s => String.eqb s key
  | _ => false
  end.

(** [key in v] for a [str] key. *)
Definition py_contains (key : string) (v : json) : may_raise bool :=
  match v with
  | JObj fields => Ok (match dict_lookup fields key with Some _ => true | None => false end)
  | JArr items => Ok (existsb (is_the_str key) items)
  | JStr s => Ok (is_substring key s)
  | _ => Err TypeError
  end.

(** [v[key]] for a [str] key. *)
Definition py_getitem (v : json) (key : string) : may_raise json :=
  match v with
  | JObj fields =>
      match dict_lookup fields key with
      | Some x => Ok x
      | None => Err KeyError
      end
  | _ => Err TypeError
  end.

Fixpoint chars_of (s : string) : list json :=
  match s with
  | EmptyString => []
  | String c s' => JStr (String c EmptyString) :: chars_of s'
  end.

(** The elements [for attr in v] runs over. *)
Definition py_iter (v : json) : may_raise (list json) :=
  match v with
  | JArr items => Ok items
  | JObj fields => Ok (map (fun kv => JStr (fst kv)) fields)
  | JStr s => Ok (chars_of s)
  | _ => Err TypeError
  end.

(** ** Handling of a successful response (lines 62-84) *)

(** One entry of the returned source list: the dict [{"uri": .., "title": ..}]. *)
Record source : Type := { uri : json; title : json }.

(** [candidates[0].content.parts[0].text], with the defaults of lines 63-65. *)
Definition get_candidate (result : json) : may_raise json :=
  let* candidates := py_get result "candidates" (JArr [JObj []]) in
  py_index0 candidates.

Definition get_text (candidate : json) : may_raise json :=
  let* c := py_get candidate "content" (JObj []) in
  let* parts := py_get c "parts" (JArr [JObj []]) in
  let* content := py_index0 parts in
  py_get content "text" (JStr "").

(** The filter of the comprehension (line 81):
    [attr.get('web') and attr.get('web').get('uri') and attr.get('web').get('title')].
    The repeated [attr.get('web')] has no effect and gives the same value each
    time, so it is bound once. *)
Definition has_web_uri_title (attr : json) : may_raise bool :=
  let* web := py_get attr "web" JNull in
  if truthy web then
    let* u := py_get web "uri" JNull in
    if truthy u then
      let* t := py_get web "title" JNull in
      Ok (truthy t)
    else Ok false
  else Ok false.

(** The element of the comprehension (lines 76-79). *)
Definition make_source (attr : json) : may_raise source :=
  let* web1 := py_get attr "web" (JObj []) in
  let* u := py_get web1 "uri" JNull in
  let* web2 := py_get attr "web" (JObj []) in
  let* t := py_get web2 "title" JNull in
  Ok {| uri := u; title := t |}.

(** The comprehension itself: attributes are visited in order, the first
    exception aborts it. *)
Fixpoint collect_sources (attrs : list json) : may_raise (list source) :=
  match attrs with
  | [] => Ok []
  | attr :: rest =>
      let* keep := has_web_uri_title attr in
      if keep then
        let* s := make_source attr in
        let* ss := collect_sources rest in
        Ok (s :: ss)
      else collect_sources rest
  end.

(** Lines 72-82. *)
Definition get_sources (candidate : json) : may_raise (list source) :=
  let* grounding_metadata := py_get candidate "groundingMetadata" (JObj []) in
  if truthy grounding_metadata then
    let* present := py_contains "groundingAttributions" grounding_metadata in
    if present then
      let* attributions := py_getitem grounding_metadata "groundingAttributions" in
      let* attrs := py_iter attributions in
      collect_sources attrs
    else Ok []
  else Ok [].

Definition invalid_structure : exn :=
  Exception (JStr "Invalid response structure from API.").

(** Lines 62-84 after [result = response.json()]: the pair the function
    returns, or the exception raised on the way. *)
Definition handle_ok (result : json) : may_raise (json * list source) :=
  let* candidate := get_candidate result in
  let* text := get_text candidate in
  if negb (truthy text) then Err invalid_structure
  else
    let* sources := get_sources candidate in
    Ok (text, sources).

(** ** Handling of a definitive client error (lines 94-96) *)

Definition decimal (n : Z) : string := NilZero.string_of_int (Z.to_int n).

Definition http_error_default (status_code : Z) : json :=
  JStr ("HTTP error! status: " ++ decimal status_code).

(** The argument of the exception raised at line 96. *)
Definition error_message (error_result : json) (status_code : Z) : may_raise json :=
  let* err := py_get error_result "error" (JObj []) in
  py_get err "message" (http_error_default status_code).

(** ** The request payload (lines 37-48) *)

Record part : Type := { text : string }.

(** A turn in the wire shape [{"role": .., "parts": [{"text": ..}]}]. *)
Record message : Type := { role : string; parts : list part }.

Inductive tool : Type := google_search.

Record payload : Type := { contents : list message; tools : list tool }.

Definition SYSTEM_PROMPT : string := "
You are an expert Digital Marketing Strategist. Your name is 'Marketing Expert'.
Your goal is to provide insightful, actionable, and up-to-date advice on all aspects of digital marketing.
When users ask for information, strategies, or trends, you MUST leverage your built-in search capabilities to find the most current and relevant information.
Always cite your sources when you use search information, providing the title and URI.
Your responses should be professional, clear, and structured.
Use markdown (like lists, bolding, and code blocks for examples) to make your advice easy to understand and follow.
Always be helpful, encouraging, and focused on helping the user achieve their marketing goals.
".

Definition max_history_length : nat := 10.

(** [l[-n:]]: the last [n] items, all of them when there are fewer; [l[-0:]]
    is [l[0:]]. *)
Definition slice_last {A : Type} (n : nat) (l : list A) : list A :=
  match n with
  | O => l
  | S _ => drop (length l - n)%nat l
  end.

Definition system_message : message :=
  {| role := "system"; parts := [ {| text := SYSTEM_PROMPT |} ] |}.

Definition recent_history_payload (chat_history : list message) : list message :=
  slice_last max_history_length
    (filter (fun msg => role msg <> "system") chat_history).

Definition build_payload (chat_history : list message) : payload :=
  let final_payload_contents := ([system_message] ++ recent_history_payload chat_history)%list in
  {| contents := final_payload_contents; tools := [google_search] |}.

(** ** The transport and the observable effects *)

(** What [requests.post] hands back.  [json_body] is what [response.json()]
    decodes, [None] when the body is not JSON. *)
Record response : Type := { status_code : Z; json_body : option json }.

(** [response.ok] of the requests library: true unless [raise_for_status()]
    would raise, that is unless [400 <= status_code < 600]. *)
Definition ok (r : response) : bool :=
  negb ((400 <=? status_code r) && (status_code r <? 600)).

(** [response.json()]; since requests 2.27 its failure is a
    [requests.exceptions.JSONDecodeError], a [RequestException]. *)
Definition response_json (r : response) : may_raise json :=
  match json_body r with
  | Some j => Ok j
  | None => Err (RequestException JSONDecodeError)
  end.

(** How a call of [requests.post] ends: with a response, or with a
    network-level failure, which requests reports as a [RequestException]. *)
Inductive reply : Type :=
| Responds (r : response)
| Fails (e : request_error).

(** The network seen from the client: the reply to the [k]-th call of
    [requests.post] (counted from 0) carrying a given payload. *)
Definition transport : Type := nat -> payload -> reply.

(** The effects of a call, in the order they happened: the payloads posted
    and the arguments of [time.sleep]. *)
Record world : Type := { requests : list payload; sleeps : list Z }.

Definition initial_world : world := {| requests := []; sleeps := [] |}.

Definition sent (p : payload) (w : world) : world :=
  {| requests := (requests w ++ [p])%list; sleeps := sleeps w |}.

Definition post (net : transport) (p : payload) (w : world) : reply * world :=
  (net (length (requests w)) p, sent p w).

Definition sleep (delay : Z) (w : world) : world :=
  {| requests := requests w; sleeps := (sleeps w ++ [delay])%list |}.

(** ** The retry loop (lines 53-109) *)

(** The first component of the returned pair: the text taken from the
    response (line 84), or the string
    [f"Sorry, I encountered an error: {e}"] of line 107, kept as the exception
    it interpolates ([str(e)] of an interpreter-raised exception is the
    interpreter's wording, not the program's). *)
Inductive answer : Type :=
| Text (v : json)
| Apology (e : exn).

Inductive outcome : Type :=
| Returned (a : answer) (sources : list source)
| Raised (e : exn).

(** The wording of an apology whose exception was built by the program
    from a string. *)
Definition apology_text (a : answer) : option string :=
  match a with
  | Apology (Exception (JStr msg)) => Some ("Sorry, I encountered an error: " ++ msg)
  | _ => None
  end.

Definition max_retries : Z := 5.

Definition retries_exhausted : exn :=
  Exception (JStr "Max retries reached. Could not get a response from the API.").

(** How the [try] block of one iteration ends without an exception. *)
Inductive body_end : Type :=
| Return_ (v : json) (sources : list source)            (* line 84 *)
| Continue_ (retries delay : Z).                        (* lines 89-91 *)

(** Lines 59-96: the body of the [try]. *)
Definition try_body (net : transport) (p : payload) (retries delay : Z) (w : world)
  : may_raise body_end * world :=
  let '(r, w1) := post net p w in
  match r with
  | Fails e => (Err (RequestException e), w1)
  | Responds response =>
      if ok response then
        (let* result := response_json response in
         let* text_sources := handle_ok result in
         Ok (Return_ (fst text_sources) (snd text_sources)), w1)
      else if (status_code response =? 429) || (status_code response >=? 500) then
        (Ok (Continue_ (retries + 1) (delay * 2)), sleep delay w1)
      else
        (let* error_result := response_json response in
         let* msg := error_message error_result (status_code response) in
         Err (Exception msg), w1)
  end.

(** The [while] loop with its two handlers.  [fuel] bounds the number of
    iterations; [None] means it ran out. *)
Fixpoint retry_loop (fuel : nat) (net : transport) (p : payload)
    (retries delay : Z) (w : world) : option (outcome * world) :=
  if retries <? max_retries then
    match fuel with
    | O => None
    | S fuel' =>
        match try_body net p retries delay w with
        | (Ok (Return_ v sources), w1) => Some (Returned (Text v) sources, w1)
        | (Ok (Continue_ retries' delay'), w1) => retry_loop fuel' net p retries' delay' w1
        | (Err e, w1) =>
            if is_request_exception e then                       (* line 98 *)
              if retries >=? max_retries - 1 then Some (Raised e, w1)
              else retry_loop fuel' net p (retries + 1) (delay * 2) (sleep delay w1)
            else                                                 (* line 105 *)
              Some (Returned (Apology e) [], w1)
        end
    end
  else Some (Raised retries_exhausted, w).

(** [get_bot_response(chat_history)] against a transport: [retries = 0],
    [delay = 1], and as many iterations as the loop can ever make. *)
Definition get_bot_response (chat_history : list message) (net : transport)
  : option (outcome * world) :=
  retry_loop (Z.to_nat max_retries) net (build_payload chat_history) 0 1 initial_world.

(** ** The chat history as a shared object *)

(** [chat_history] is a reference to a Python list of references to turn
    dicts, shared with the caller.  Lines 37-48 are run here against a store
    of such objects to see what they write. *)
Definition loc : Type := positive.

Inductive object : Type :=
| ListObj (items : list loc)
| TurnObj (m : message).

(** Creating an object ([[...]], [x[-n:]], [a + b], [{...}]) takes a location
    not yet in use. *)
Definition alloc (st : gmap loc object) (o : object) : loc * gmap loc object :=
  let l := fresh (dom st) in (l, <[l := o]> st).

(** The turns a list of references stands for. *)
Fixpoint read_turns (st : gmap loc object) (refs : list loc) : option (list message) :=
  match refs with
  | [] => Some []
  | l :: rest =>
      match st !! l with
      | Some (TurnObj m) =>
          match read_turns st rest with
          | Some ms => Some (m :: ms)
          | None => None
          end
      | _ => None
      end
  end.

Definition read_history (st : gmap loc object) (l : loc) : option (list message) :=
  match st !! l with
  | Some (ListObj items) => read_turns st items
  | _ => None
  end.

(** The references kept by [[msg for msg in chat_history if msg['role'] != 'system']]. *)
Fixpoint keep_non_system (st : gmap loc object) (refs : list loc) : option (list loc) :=
  match refs with
  | [] => Some []
  | l :: rest =>
      match st !! l with
      | Some (TurnObj m) =>
          match keep_non_system st rest with
          | Some kept => Some (if decide (role m <> "system") then l :: kept else kept)
          | None => None
          end
      | _ => None
      end
  end.

(** Lines 38-43 on the store: every statement creates a list or a dict; none
    assigns into, appends to or deletes from an existing one.  The result is
    the location of [final_payload_contents]. *)
Definition build_contents_in (st : gmap loc object) (chat_history : loc)
  : option (loc * gmap loc object) :=
  match st !! chat_history with
  | Some (ListObj items) =>
      match keep_non_system st items with
      | Some kept =>
          let '(_, st1) := alloc st (ListObj kept) in                          (* line 38 *)
          let recent := slice_last max_history_length kept in
          let '(_, st2) := alloc st1 (ListObj recent) in                       (* line 39 *)
          let '(sys, st3) := alloc st2 (TurnObj system_message) in             (* line 42 *)
          let '(_, st4) := alloc st3 (ListObj [sys]) in
          let '(final, st5) := alloc st4 (ListObj ([sys] ++ recent)%list) in   (* line 43 *)
          Some (final, st5)
      | None => None
      end
  | _ => None
  end.

(** The whole call with the history passed by reference: the payload is
    built in the store, serialised from it, and the loop runs. *)
Definition get_bot_response_in (st : gmap loc object) (chat_history : loc) (net : transport)
  : option (outcome * world * gmap loc object) :=
  match build_contents_in st chat_history with
  | Some (final, st') =>
      match read_history st' final with
      | Some final_payload_contents =>
          let p := {| contents := final_payload_contents; tools := [google_search] |} in
          match retry_loop (Z.to_nat max_retries) net p 0 1 initial_world with
          | Some (o, w) => Some (o, w, st')
          | None => None
          end
      | None => None
      end
  | None => None
  end.

(** * Notions used in the statements *)

(** A computation whose exceptions, if any, are for the second handler
    ([except Exception]), not for the first. *)
Definition raises_locally {A : Type} (m : may_raise A) : Prop :=
  forall e, m = Err e -> is_request_exception e = false.

(** What an iteration of the loop does with the reply to its request. *)
Inductive verdict : Type :=
| Finish (o : outcome)
| Retry.

(** The first handler (lines 98-104). *)
Definition on_request_error (e : request_error) (retries : Z) : verdict :=
  if retries >=? max_retries - 1 then Finish (Raised (RequestException e)) else Retry.

(** The second handler (lines 105-107) around a computation [m]. *)
Definition apologise {A : Type} (m : may_raise A) (k : A -> outcome) : outcome :=
  match m with
  | Ok a => k a
  | Err e => Returned (Apology e) []
  end.

(** The iteration read off the reply alone; [retry_loop_unfold] below shows
    that the loop does exactly this. *)
Definition verdict_of (r : reply) (retries : Z) : verdict :=
  match r with
  | Fails e => on_request_error e retries
  | Responds response =>
      if ok response then
        match json_body response with
        | None => on_request_error JSONDecodeError retries
        | Some result =>
            Finish (apologise (handle_ok result)
                      (fun ts => Returned (Text (fst ts)) (snd ts)))
        end
      else if (status_code response =? 429) || (status_code response >=? 500) then Retry
      else
        match json_body response with
        | None => on_request_error JSONDecodeError retries
        | Some error_result =>
            Finish (apologise (error_message error_result (status_code response))
                      (fun msg => Returned (Apology (Exception msg)) []))
        end
  end.

(** The delays of [k] consecutive retries starting from [delay]. *)
Fixpoint backoff (delay : Z) (k : nat) : list Z :=
  match k with
  | O => []
  | S k' => delay :: backoff (delay * 2) k'
  end.

(** The iteration numbered [i] (from 0) of a loop entered with [retries] and
    a log [w] asks for the reply numbered [length (requests w) + i]. *)
Definition verdict_at (net : transport) (p : payload) (retries : Z) (w : world) (i : nat)
  : verdict :=
  verdict_of (net (length (requests w) + i)%nat p) (retries + Z.of_nat i).

(** How a run ended: its last iteration finished with [o] after [m] retries,
    or every one of its [n] iterations asked for a retry. *)
Definition finished_after (net : transport) (p : payload) (retries delay : Z)
    (w : world) (o : outcome) (w' : world) (n : nat) : Prop :=
  exists m, n = S m /\
    (forall i, (i < m)%nat -> verdict_at net p retries w i = Retry) /\
    verdict_at net p retries w m = Finish o /\
    sleeps w' = (sleeps w ++ backoff delay m)%list.

Definition exhausted_after (net : transport) (p : payload) (retries delay : Z)
    (w : world) (o : outcome) (w' : world) (n : nat) : Prop :=
  retries + Z.of_nat n = max_retries /\
  o = Raised retries_exhausted /\
  (forall i, (i < n)%nat -> verdict_at net p retries w i = Retry) /\
  sleeps w' = (sleeps w ++ backoff delay n)%list.

Definition non_system (chat_history : list message) : list message :=
  filter (fun msg => role msg <> "system") chat_history.

Definition retryable_status (status : Z) : Prop :=
  status = 429 \/ 500 <= status < 600.

(** The text of lines 63-65, straight from the decoded body. *)
Definition extract_text (result : json) : may_raise json :=
  let* candidate := get_candidate result in
  get_text candidate.

(** The exception the handling of a body without a usable text ends in. *)
Definition unusable_text_error (result : json) : exn :=
  match extract_text result with
  | Ok _ => invalid_structure
  | Err e => e
  end.

(** [attr["web"][key]] read the forgiving way: [None] when [attr] or its
    [web] entry is not a dict or the key is absent. *)
Definition web_field (attr : json) (key : string) : json :=
  match attr with
  | JObj fields =>
      match dict_lookup fields "web" with
      | Some (JObj web) =>
          match dict_lookup web key with
          | Some v => v
          | None => JNull
          end
      | _ => JNull
      end
  | _ => JNull
  end.

(** An attribution with both a [uri] and a [title] that count as present. *)
Definition complete (attr : json) : bool :=
  truthy (web_field attr "uri") && truthy (web_field attr "title").

Definition source_of (attr : json) : source :=
  {| uri := web_field attr "uri"; title := web_field attr "title" |}.

(** The value under [groundingMetadata.groundingAttributions], if any. *)
Definition grounding_attributions (candidate : json) : option json :=
  match candidate with
  | JObj fields =>
      match dict_lookup fields "groundingMetadata" with
      | Some (JObj metadata) => dict_lookup metadata "groundingAttributions"
      | _ => None
      end
  | _ => None
  end.

(** A field that is absent ([None] after [.get]) or the empty string. *)
Definition empty_or_missing (v : json) : Prop := v = JNull \/ v = JStr "".

Definition has_title_and_uri (s : source) : Prop :=
  truthy (uri s) = true /\ truthy (title s) = true.

(** A reply that is worth another attempt: a network-level failure, or a
    429 or 5xx status. *)
Definition transient (r : reply) : Prop :=
  match r with
  | Fails _ => True
  | Responds response => retryable_status (status_code response)
  end.

(** An attribution the comprehension can inspect without an exception: a
    dict whose [web] entry is absent, falsy, or itself a dict. *)
Definition inspectable (attr : json) : bool :=
  match attr with
  | JObj fields =>
      match dict_lookup fields "web" with
      | None => true
      | Some (JObj _) => true
      | Some web => negb (truthy web)
      end
  | _ => false
  end.

(** The seconds slept in total. *)
Definition total_sleep (w : world) : Z := foldr Z.add 0 (sleeps w).

(** * Transports, bodies and histories used in examples *)

Definition turn (r t : string) : message := {| role := r; parts := [ {| text := t |} ] |}.

Definition twelve_turns : list message :=
  [ turn "system" "persona"; turn "assistant" "a0";
    turn "user" "u1"; turn "assistant" "a1"; turn "user" "u2"; turn "assistant" "a2";
    turn "user" "u3"; turn "assistant" "a3"; turn "user" "u4"; turn "assistant" "a4";
    turn "user" "u5"; turn "assistant" "a5"; turn "user" "u6" ].

Definition always (r : reply) : transport := fun _ _ => r.

Definition server_error : response := {| status_code := 500; json_body := None |}.

Definition answer_body (s : string) : json :=
  JObj [("candidates",
         JArr [JObj [("content", JObj [("parts", JArr [JObj [("text", JStr s)]])])]])].

Definition rate_limited : response := {| status_code := 429; json_body := None |}.

(** A transport that plays a script of replies and then repeats a last one. *)
Definition scripted (script : list reply) (then_ : reply) : transport :=
  fun k _ => nth k script then_.

Definition two_429_then_200 : transport :=
  scripted [Responds rate_limited; Responds rate_limited]
           (Responds {| status_code := 200; json_body := Some (answer_body "Use SEO.") |}).

Definition unreachable : transport := always (Fails (ConnectionError "connection refused")).

Definition bad_key : response :=
  {| status_code := 400;
     json_body := Some (JObj [("error", JObj [("message", JStr "bad key")])]) |}.

Definition empty_text : response :=
  {| status_code := 200; json_body := Some (answer_body "") |}.

Definition no_structure : response :=
  {| status_code := 200; json_body := Some (JObj []) |}.

Definition no_candidates : response :=
  {| status_code := 200; json_body := Some (JObj [("candidates", JArr [])]) |}.

Definition once (p : payload) : world := {| requests := [p]; sleeps := [] |}.

Definition attribution (u t : json) : json :=
  JObj [("web", JObj [("uri", u); ("title", t)])].

Definition five_attributions : list json :=
  [ attribution (JStr "https://a.example") (JStr "A");
    JObj [("web", JObj [("uri", JStr "https://b.example")])];
    attribution (JStr "") (JStr "C");
    JObj [];
    attribution (JStr "https://e.example") (JStr "E") ].

Definition grounded_candidate : json :=
  JObj [("content", JObj [("parts", JArr [JObj [("text", JStr "Use SEO.")]])]);
        ("groundingMetadata", JObj [("groundingAttributions", JArr five_attributions)])].

Definition grounded : response :=
  {| status_code := 200; json_body := Some (JObj [("candidates", JArr [grounded_candidate])]) |}.

Definition two_sources : list source :=
  [ {| uri := JStr "https://a.example"; title := JStr "A" |};
    {| uri := JStr "https://e.example"; title := JStr "E" |} ].

(** A store holding a three-turn history at location 1. *)
Definition small_store : gmap loc object :=
  <[1%positive := ListObj [2; 3; 4]%positive]>
    (<[2%positive := TurnObj (turn "system" "persona")]>
       (<[3%positive := TurnObj (turn "assistant" "Hello!")]>
          (<[4%positive := TurnObj (turn "user" "What is SEO?")]> ∅))).

Definition flaky_then_fine : transport :=
  scripted [Fails (Timeout "read timed out"); Responds server_error; Responds rate_limited]
           (Responds {| status_code := 200; json_body := Some (answer_body "Use SEO.") |}).

Definition down_then_unreachable : transport :=
  scripted [Responds server_error; Responds server_error; Responds rate_limited;
            Responds server_error]
           (Fails (ConnectionError "connection refused")).

Definition three_turns : list message :=
  [ turn "system" "persona"; turn "assistant" "Hello!"; turn "user" "What is SEO?" ].

Definition not_found : response :=
  {| status_code := 404; json_body := Some (JObj [("error", JObj [("code", JInt 404)])]) |}.

Definition half_grounded_candidate : json :=
  JObj [("content", JObj [("parts", JArr [JObj [("text", JStr "Use SEO.")]])]);
        ("groundingMetadata",
         JObj [("groundingAttributions",
                JArr [attribution (JStr "https://a.example") (JStr "A"); JNull])])].

Definition half_grounded : response :=
  {| status_code := 200;
     json_body := Some (JObj [("candidates", JArr [half_grounded_candidate])]) |}.

Definition quota_exceeded : response :=
  {| status_code := 403; json_body := Some (JObj [("error", JStr "quota exceeded")]) |}.

(** * Properties *)

(** ** Exceptions raised while handling a body never reach the first handler *)

Lemma raises_locally_ok {A : Type} (a : A) : raises_locally (Ok a).
Proof. intros e H. discriminate H. Qed.

Lemma raises_locally_bind {A B : Type} (m : may_raise A) (k : A -> may_raise B) :
  raises_locally m -> (forall a, raises_locally (k a)) -> raises_locally (bind m k).
Proof.
  intros Hm Hk e. destruct m as [a|e']; simpl.
  - apply Hk.
  - intros [= <-]. now apply Hm.
Qed.

Lemma raises_locally_if {A : Type} (b : bool) (m1 m2 : may_raise A) :
  raises_locally m1 -> raises_locally m2 -> raises_locally (if b then m1 else m2).
Proof. now destruct b. Qed.

Lemma py_get_local v key d : raises_locally (py_get v key d).
Proof.
  intros e. destruct v; simpl; try (now intros [= <-]).
  destruct (dict_lookup fields key); discriminate.
Qed.

Lemma py_index0_local v : raises_locally (py_index0 v).
Proof.
  intros e. destruct v as [| | | |s|items|]; simpl; try (now intros [= <-]).
  - destruct s; [now intros [= <-] | discriminate].
  - destruct items; [now intros [= <-] | discriminate].
Qed.

Lemma py_contains_local key v : raises_locally (py_contains key v).
Proof. intros e. destruct v; simpl; try (now intros [= <-]); discriminate. Qed.

Lemma py_getitem_local v key : raises_locally (py_getitem v key).
Proof.
  intros e. destruct v; simpl; try (now intros [= <-]).
  destruct (dict_lookup fields key); [discriminate | now intros [= <-]].
Qed.

Lemma py_iter_local v : raises_locally (py_iter v).
Proof. intros e. destruct v; simpl; try (now intros [= <-]); discriminate. Qed.

Create HintDb local_raise.
#[local] Hint Resolve raises_locally_ok py_get_local py_index0_local
  py_contains_local py_getitem_local py_iter_local : local_raise.

Ltac local_raise :=
  repeat first
    [ apply raises_locally_bind; [ | intro ]
    | apply raises_locally_if
    | solve [ auto with local_raise ]
    | now (intros ? [= <-]) ].

Lemma has_web_uri_title_local attr : raises_locally (has_web_uri_title attr).
Proof. unfold has_web_uri_title. local_raise. Qed.

Lemma make_source_local attr : raises_locally (make_source attr).
Proof. unfold make_source. local_raise. Qed.

Lemma collect_sources_local attrs : raises_locally (collect_sources attrs).
Proof.
  induction attrs as [|attr rest IH]; simpl.
  - apply raises_locally_ok.
  - apply raises_locally_bind; [apply has_web_uri_title_local | intros keep].
    destruct keep; [ | exact IH ].
    apply raises_locally_bind; [apply make_source_local | intros s].
    apply raises_locally_bind; [exact IH | intros ss]. apply raises_locally_ok.
Qed.

#[local] Hint Resolve has_web_uri_title_local make_source_local
  collect_sources_local : local_raise.

Lemma get_sources_local candidate : raises_locally (get_sources candidate).
Proof. unfold get_sources. local_raise. Qed.

Lemma handle_ok_local result : raises_locally (handle_ok result).
Proof.
  unfold handle_ok, get_candidate, get_text, get_sources. local_raise.
Qed.

Lemma error_message_local error_result status : raises_locally (error_message error_result status).
Proof. unfold error_message. local_raise. Qed.

(** ** One iteration of the loop, by the reply it receives *)

Lemma retry_loop_done fuel net p retries delay w :
  max_retries <= retries ->
  retry_loop fuel net p retries delay w = Some (Raised retries_exhausted, w).
Proof.
  intros H. destruct fuel; simpl;
    (destruct (retries <? max_retries) eqn:E; [apply Z.ltb_lt in E; lia | reflexivity]).
Qed.

Lemma retry_loop_unfold fuel net p retries delay w :
  retries < max_retries ->
  retry_loop (S fuel) net p retries delay w =
  match verdict_of (net (length (requests w)) p) retries with
  | Finish o => Some (o, sent p w)
  | Retry => retry_loop fuel net p (retries + 1) (delay * 2) (sleep delay (sent p w))
  end.
Proof.
  intros H. cbn [retry_loop]. apply Z.ltb_lt in H. rewrite H.
  unfold try_body, post, verdict_of, on_request_error.
  destruct (net (length (requests w)) p) as [response|e]; cbn [is_request_exception].
  - destruct (ok response).
    + unfold response_json. destruct (json_body response) as [result|]; cbn [bind is_request_exception].
      * destruct (handle_ok result) as [[v sources]|e] eqn:E; cbn [bind apologise fst snd]; [reflexivity|].
        now rewrite (handle_ok_local _ _ E).
      * now destruct (retries >=? max_retries - 1).
    + destruct ((status_code response =? 429) || (status_code response >=? 500)); [reflexivity|].
      unfold response_json. destruct (json_body response) as [error_result|]; cbn [bind is_request_exception].
      * destruct (error_message error_result (status_code response)) as [msg|e] eqn:E;
          cbn [bind apologise is_request_exception]; [reflexivity|].
        now rewrite (error_message_local _ _ _ E).
      * now destruct (retries >=? max_retries - 1).
  - now destruct (retries >=? max_retries - 1).
Qed.

(** ** The whole run of the loop *)

Lemma verdict_at_next net p retries delay w i :
  verdict_at net p (retries + 1) (sleep delay (sent p w)) i =
  verdict_at net p retries w (S i).
Proof.
  unfold verdict_at, sleep, sent. cbn [requests]. rewrite length_app. cbn [length].
  replace (length (requests w) + 1 + i)%nat with (length (requests w) + S i)%nat by lia.
  replace (retries + 1 + Z.of_nat i) with (retries + Z.of_nat (S i)) by lia.
  reflexivity.
Qed.

Lemma retry_loop_run fuel : forall net p retries delay w o w',
  retry_loop fuel net p retries delay w = Some (o, w') ->
  retries <= max_retries ->
  exists n,
    requests w' = (requests w ++ replicate n p)%list /\
    retries + Z.of_nat n <= max_retries /\
    (finished_after net p retries delay w o w' n \/
     exhausted_after net p retries delay w o w' n).
Proof.
  induction fuel as [|fuel IH]; intros net p retries delay w o w' Hrun Hle.
  - destruct (Z.ltb_spec retries max_retries) as [Hlt|Hge].
    + cbn [retry_loop] in Hrun. apply Z.ltb_lt in Hlt. rewrite Hlt in Hrun. discriminate.
    + rewrite retry_loop_done in Hrun by lia. injection Hrun as <- <-.
      exists 0%nat. cbn [replicate backoff]. rewrite !app_nil_r.
      split; [reflexivity|]. split; [lia|]. right.
      split; [lia|]. split; [reflexivity|]. split; [intros i Hi; lia | cbn [backoff]; now rewrite app_nil_r].
  - destruct (Z.ltb_spec retries max_retries) as [Hlt|Hge].
    + rewrite retry_loop_unfold in Hrun by assumption.
      destruct (verdict_of (net (length (requests w)) p) retries) as [o0|] eqn:Hv.
      * injection Hrun as <- <-. exists 1%nat. cbn [replicate sent requests sleeps].
        split; [reflexivity|]. split; [lia|]. left. exists 0%nat.
        cbn [backoff]. rewrite app_nil_r.
        split; [reflexivity|]. split; [intros i Hi; lia|]. split; [|reflexivity].
        unfold verdict_at. now rewrite Nat.add_0_r, Z.add_0_r.
      * apply IH in Hrun; [|lia]. destruct Hrun as (n & Hreq & Hn & Hend).
        exists (S n). cbn [sleep sent requests sleeps] in Hreq.
        split; [rewrite Hreq, <- app_assoc; reflexivity|]. split; [lia|].
        assert (H0 : verdict_at net p retries w 0 = Retry).
        { unfold verdict_at. now rewrite Nat.add_0_r, Z.add_0_r. }
        destruct Hend as [(m & -> & Hretry & Hlast & Hsl) | (Hsum & -> & Hretry & Hsl)].
        -- left. exists (S m). split; [reflexivity|].
           split; [|split].
           ++ intros [|i] Hi; [exact H0|].
              rewrite <- verdict_at_next with (delay := delay). apply Hretry. lia.
           ++ now rewrite <- verdict_at_next with (delay := delay).
           ++ rewrite Hsl. cbn [sleep sleeps backoff]. now rewrite <- app_assoc.
        -- right. split; [lia|]. split; [reflexivity|]. split.
           ++ intros [|i] Hi; [exact H0|].
              rewrite <- verdict_at_next with (delay := delay). apply Hretry. lia.
           ++ rewrite Hsl. cbn [sleep sleeps backoff]. now rewrite <- app_assoc.
    + rewrite retry_loop_done in Hrun by lia. injection Hrun as <- <-.
      exists 0%nat. cbn [replicate backoff]. rewrite !app_nil_r.
      split; [reflexivity|]. split; [lia|]. right.
      split; [lia|]. split; [reflexivity|]. split; [intros i Hi; lia | cbn [backoff]; now rewrite app_nil_r].
Qed.

(** The loop always ends within the iterations it is given. *)
Lemma retry_loop_total fuel : forall net p retries delay w,
  (Z.to_nat (max_retries - retries) <= fuel)%nat ->
  exists o w', retry_loop fuel net p retries delay w = Some (o, w').
Proof.
  induction fuel as [|fuel IH]; intros net p retries delay w Hfuel.
  - rewrite retry_loop_done by lia. eauto.
  - destruct (Z.ltb_spec retries max_retries) as [Hlt|Hge].
    + rewrite retry_loop_unfold by assumption.
      destruct (verdict_of _ retries); [eauto|]. apply IH. lia.
    + rewrite retry_loop_done by lia. eauto.
Qed.

(** More iterations than needed change nothing. *)
Lemma retry_loop_fuel_irrelevant fuel : forall fuel' net p retries delay w r,
  retry_loop fuel net p retries delay w = Some r ->
  (fuel <= fuel')%nat ->
  retry_loop fuel' net p retries delay w = Some r.
Proof.
  induction fuel as [|fuel IH]; intros fuel' net p retries delay w r Hrun Hle.
  - destruct (Z.ltb_spec retries max_retries) as [Hlt|Hge].
    + cbn [retry_loop] in Hrun. apply Z.ltb_lt in Hlt. rewrite Hlt in Hrun. discriminate.
    + rewrite retry_loop_done in * by lia. exact Hrun.
  - destruct (Z.ltb_spec retries max_retries) as [Hlt|Hge].
    + destruct fuel' as [|fuel']; [lia|].
      rewrite retry_loop_unfold in * by assumption.
      destruct (verdict_of _ retries); [exact Hrun|]. apply IH; [exact Hrun | lia].
    + rewrite retry_loop_done in * by lia. exact Hrun.
Qed.

Lemma get_bot_response_total chat_history net :
  exists o w, get_bot_response chat_history net = Some (o, w).
Proof. apply retry_loop_total. unfold max_retries. lia. Qed.

Lemma get_bot_response_run chat_history net o w :
  get_bot_response chat_history net = Some (o, w) ->
  exists n,
    requests w = replicate n (build_payload chat_history) /\
    (n <= 5)%nat /\
    (finished_after net (build_payload chat_history) 0 1 initial_world o w n \/
     exhausted_after net (build_payload chat_history) 0 1 initial_world o w n).
Proof.
  intros Hrun. apply retry_loop_run in Hrun; [|unfold max_retries; lia].
  destruct Hrun as (n & Hreq & Hn & Hend). exists n.
  split; [exact Hreq|]. split; [unfold max_retries in Hn; lia | exact Hend].
Qed.

(** At least one request is posted. *)
Lemma get_bot_response_posts chat_history net o w :
  get_bot_response chat_history net = Some (o, w) ->
  exists n, requests w = replicate (S n) (build_payload chat_history) /\ (n < 5)%nat.
Proof.
  intros Hrun. apply get_bot_response_run in Hrun.
  destruct Hrun as (n & Hreq & Hn & [(m & -> & _) | (Hsum & _)]).
  - exists m. split; [exact Hreq | lia].
  - destruct n as [|n]; [unfold max_retries in Hsum; lia|].
    exists n. split; [exact Hreq | lia].
Qed.

(** ** The conversation window *)

Lemma slice_last_split {A : Type} (n : nat) (l : list A) :
  (n < length l)%nat ->
  exists earlier, l = (earlier ++ slice_last (S n) l)%list /\
                  length (slice_last (S n) l) = S n.
Proof.
  intros H. unfold slice_last. exists (take (length l - S n) l). split.
  - now rewrite take_drop.
  - rewrite length_drop. lia.
Qed.

Lemma slice_last_sublist {A : Type} (n : nat) (l : list A) :
  slice_last n l `sublist_of` l.
Proof. destruct n; [reflexivity | apply sublist_drop]. Qed.

(** C1: for every history with more than 10 non-system turns, every request
    posted by [get_bot_response] (there is at least one) carries exactly the
    synthetic system turn followed by the last 10 non-system turns, which are
    a suffix of the non-system turns and so keep their original order. *)
Theorem C1_window_is_system_turn_then_last_ten chat_history net :
  (10 < length (non_system chat_history))%nat ->
  exists o w earlier last10,
    get_bot_response chat_history net = Some (o, w) /\
    non_system chat_history = (earlier ++ last10)%list /\
    length last10 = 10%nat /\
    last10 `sublist_of` chat_history /\
    requests w <> [] /\
    Forall (fun p => contents p = system_message :: last10) (requests w).
Proof.
  intros Hlen.
  destruct (get_bot_response_total chat_history net) as (o & w & Hrun).
  destruct (slice_last_split 9 (non_system chat_history)) as (earlier & Hsplit & Hten);
    [lia|].
  exists o, w, earlier, (slice_last 10 (non_system chat_history)).
  split; [exact Hrun|]. split; [exact Hsplit|]. split; [exact Hten|].
  split.
  { transitivity (non_system chat_history);
      [apply slice_last_sublist | apply sublist_filter]. }
  destruct (get_bot_response_posts _ _ _ _ Hrun) as (n & -> & _).
  split; [discriminate|]. apply Forall_replicate. reflexivity.
Qed.

Lemma C1_window_witness :
  (10 < length (non_system twelve_turns))%nat /\
  exists o w earlier last10,
    get_bot_response twelve_turns (always (Responds server_error)) = Some (o, w) /\
    non_system twelve_turns = (earlier ++ last10)%list /\
    length last10 = 10%nat /\
    last10 `sublist_of` twelve_turns /\
    requests w <> [] /\
    Forall (fun p => contents p = system_message :: last10) (requests w).
Proof.
  split; [vm_compute; lia|].
  apply (C1_window_is_system_turn_then_last_ten twelve_turns (always (Responds server_error))).
  vm_compute. lia.
Defined.

(** ** Retryable statuses and network failures *)

Lemma verdict_of_retryable response retries :
  retryable_status (status_code response) ->
  verdict_of (Responds response) retries = Retry.
Proof.
  intros H. unfold verdict_of, ok.
  destruct H as [-> | H]; [reflexivity|].
  replace (400 <=? status_code response) with true by (symmetry; apply Z.leb_le; lia).
  replace (status_code response <? 600) with true by (symmetry; apply Z.ltb_lt; lia).
  replace (status_code response >=? 500) with true by (symmetry; apply Z.geb_le; lia).
  cbn. now rewrite orb_true_r.
Qed.

Lemma verdict_of_answer response retries result :
  ok response = true -> json_body response = Some result ->
  verdict_of (Responds response) retries =
  Finish (apologise (handle_ok result) (fun ts => Returned (Text (fst ts)) (snd ts))).
Proof. intros Hok Hbody. unfold verdict_of. now rewrite Hok, Hbody. Qed.

Lemma ok_2xx response : 200 <= status_code response < 300 -> ok response = true.
Proof.
  intros H. unfold ok.
  replace (400 <=? status_code response) with false by (symmetry; apply Z.leb_gt; lia).
  reflexivity.
Qed.

(** C6: when the transport answers 429, 429 and then 200 with a well-formed
    body, [get_bot_response] returns the text and sources of that body after
    exactly 3 requests, having slept exactly twice, 1 second and then 2. *)
Theorem C6_two_429_then_200 chat_history net r0 r1 r2 result v sources :
  net 0%nat (build_payload chat_history) = Responds r0 -> status_code r0 = 429 ->
  net 1%nat (build_payload chat_history) = Responds r1 -> status_code r1 = 429 ->
  net 2%nat (build_payload chat_history) = Responds r2 -> status_code r2 = 200 ->
  json_body r2 = Some result ->
  handle_ok result = Ok (v, sources) ->
  get_bot_response chat_history net =
  Some (Returned (Text v) sources,
        {| requests := replicate 3 (build_payload chat_history); sleeps := [1; 2] |}).
Proof.
  intros H0 S0 H1 S1 H2 S2 Hbody Hok. unfold get_bot_response.
  change (Z.to_nat max_retries) with 5%nat.
  rewrite retry_loop_unfold by (unfold max_retries; lia).
  cbn [initial_world requests length]. rewrite H0.
  rewrite verdict_of_retryable by (left; exact S0).
  rewrite retry_loop_unfold by (unfold max_retries; lia).
  cbn [initial_world sleep sent requests sleeps app length]. rewrite H1.
  rewrite verdict_of_retryable by (left; exact S1).
  rewrite retry_loop_unfold by (unfold max_retries; lia).
  cbn [initial_world sleep sent requests sleeps app length]. rewrite H2.
  rewrite (verdict_of_answer r2 _ result) by (try apply ok_2xx; first [lia | assumption]).
  rewrite Hok. reflexivity.
Qed.

Lemma C6_two_429_then_200_witness :
  get_bot_response [] two_429_then_200 =
  Some (Returned (Text (JStr "Use SEO.")) [],
        {| requests := replicate 3 (build_payload []); sleeps := [1; 2] |}).
Proof.
  apply (C6_two_429_then_200 [] two_429_then_200 rate_limited rate_limited
           {| status_code := 200; json_body := Some (answer_body "Use SEO.") |}
           (answer_body "Use SEO.") (JStr "Use SEO.") []); reflexivity.
Defined.

(** C7: against a transport that answers 500 every time, [get_bot_response]
    posts exactly 5 requests (sleeping 1, 2, 4, 8 and 16 seconds) and then
    raises the max-retries exception; and whatever the transport does, a call
    ends having posted at least 1 and at most 5 requests. *)
Theorem C7_five_attempts_then_exhausted chat_history :
  (forall net,
     (forall k, exists r, net k (build_payload chat_history) = Responds r /\ status_code r = 500) ->
     get_bot_response chat_history net =
     Some (Raised retries_exhausted,
           {| requests := replicate 5 (build_payload chat_history);
              sleeps := [1; 2; 4; 8; 16] |})) /\
  (forall net, exists o w,
     get_bot_response chat_history net = Some (o, w) /\
     (1 <= length (requests w) <= 5)%nat).
Proof.
  split.
  - intros net H500. unfold get_bot_response.
    change (Z.to_nat max_retries) with 5%nat.
    do 5 (rewrite retry_loop_unfold by (unfold max_retries; lia);
          cbn [initial_world sleep sent requests sleeps app length];
          match goal with
          | |- context [net ?k _] =>
              let r := fresh "r" in let Hr := fresh "Hr" in let Hs := fresh "Hs" in
              destruct (H500 k) as (r & Hr & Hs); rewrite Hr;
              rewrite verdict_of_retryable by (right; lia)
          end).
    rewrite retry_loop_done by (unfold max_retries; lia). reflexivity.
  - intros net. destruct (get_bot_response_total chat_history net) as (o & w & Hrun).
    exists o, w. split; [exact Hrun|].
    destruct (get_bot_response_posts _ _ _ _ Hrun) as (n & -> & Hn).
    rewrite length_replicate. lia.
Qed.

Lemma C7_five_attempts_witness :
  get_bot_response [] (always (Responds server_error)) =
  Some (Raised retries_exhausted,
        {| requests := replicate 5 (build_payload []); sleeps := [1; 2; 4; 8; 16] |}).
Proof.
  apply (proj1 (C7_five_attempts_then_exhausted [])).
  intros k. exists server_error. split; reflexivity.
Defined.

Lemma verdict_of_fails e retries :
  verdict_of (Fails e) retries =
  if retries <? max_retries - 1 then Retry else Finish (Raised (RequestException e)).
Proof.
  unfold verdict_of, on_request_error.
  destruct (Z.ltb_spec retries (max_retries - 1)) as [H|H].
  - replace (retries >=? max_retries - 1) with false; [reflexivity|].
    symmetry. rewrite Z.geb_leb. apply Z.leb_gt. lia.
  - replace (retries >=? max_retries - 1) with true; [reflexivity|].
    symmetry. rewrite Z.geb_leb. apply Z.leb_le. lia.
Qed.

(** C8: an iteration whose request fails at the network level sleeps [delay],
    doubles [delay], counts one more retry and goes round the loop again,
    exactly as an iteration answered with 429 or 5xx does, unless it is the
    fifth iteration ([retries = max_retries - 1]): then the network error is
    raised to the caller, with no further sleep.  Against a network that
    always fails, the call posts 5 requests, sleeps 1, 2, 4 and 8 seconds
    and raises the error of the fifth request. *)
Theorem C8_network_failure_retries_then_propagates :
  (forall fuel net p retries delay w e,
     retries < max_retries ->
     net (length (requests w)) p = Fails e ->
     retry_loop (S fuel) net p retries delay w =
     if retries <? max_retries - 1
     then retry_loop fuel net p (retries + 1) (delay * 2) (sleep delay (sent p w))
     else Some (Raised (RequestException e), sent p w)) /\
  (forall fuel net p retries delay w r,
     retries < max_retries ->
     net (length (requests w)) p = Responds r ->
     retryable_status (status_code r) ->
     retry_loop (S fuel) net p retries delay w =
     retry_loop fuel net p (retries + 1) (delay * 2) (sleep delay (sent p w))) /\
  (forall chat_history net,
     (forall k, exists e, net k (build_payload chat_history) = Fails e) ->
     exists e,
       net 4%nat (build_payload chat_history) = Fails e /\
       get_bot_response chat_history net =
       Some (Raised (RequestException e),
             {| requests := replicate 5 (build_payload chat_history);
                sleeps := [1; 2; 4; 8] |})).
Proof.
  split; [|split].
  - intros fuel net p retries delay w e Hlt Hnet.
    rewrite retry_loop_unfold by assumption. rewrite Hnet, verdict_of_fails.
    now destruct (retries <? max_retries - 1).
  - intros fuel net p retries delay w r Hlt Hnet Hst.
    rewrite retry_loop_unfold by assumption.
    now rewrite Hnet, verdict_of_retryable.
  - intros chat_history net Hfail.
    destruct (Hfail 4%nat) as (e4 & H4). exists e4. split; [exact H4|].
    unfold get_bot_response. change (Z.to_nat max_retries) with 5%nat.
    do 4 (rewrite retry_loop_unfold by (unfold max_retries; lia);
          cbn [initial_world sleep sent requests sleeps app length];
          match goal with
          | |- context [net ?k _] =>
              let e := fresh "e" in let He := fresh "He" in
              destruct (Hfail k) as (e & He); rewrite He, verdict_of_fails
          end;
          cbn [Z.ltb Z.compare Z.add Z.sub Z.opp Z.pos_sub Pos.add Pos.succ
               Pos.compare Pos.compare_cont Pos.pred_double max_retries Z.mul Pos.mul]).
    rewrite retry_loop_unfold by (unfold max_retries; lia).
    cbn [initial_world sleep sent requests sleeps app length].
    rewrite H4, verdict_of_fails. reflexivity.
Qed.

Lemma C8_network_failure_witness :
  get_bot_response [] unreachable =
  Some (Raised (RequestException (ConnectionError "connection refused")),
        {| requests := replicate 5 (build_payload []); sleeps := [1; 2; 4; 8] |}) /\
  retry_loop 1 unreachable (build_payload []) 4 16 initial_world =
  Some (Raised (RequestException (ConnectionError "connection refused")),
        sent (build_payload []) initial_world) /\
  retry_loop 2 unreachable (build_payload []) 3 8 initial_world =
  retry_loop 1 unreachable (build_payload []) 4 16
    (sleep 8 (sent (build_payload []) initial_world)).
Proof.
  destruct C8_network_failure_retries_then_propagates as (Hstep & _ & Hrun).
  split; [|split].
  - destruct (Hrun [] unreachable) as (e & He & ->).
    + intros k. eexists. reflexivity.
    + injection He as <-. reflexivity.
  - apply (Hstep 0%nat unreachable (build_payload []) 4 16 initial_world
             (ConnectionError "connection refused")); [unfold max_retries; lia | reflexivity].
  - apply (Hstep 1%nat unreachable (build_payload []) 3 8 initial_world
             (ConnectionError "connection refused")); [unfold max_retries; lia | reflexivity].
Defined.

(** ** The reply that ends a call *)

(** A reply on which the loop finishes is the last one the call consumes:
    nothing is posted and no sleep happens after it. *)
Lemma finishing_reply chat_history net o w k o' :
  get_bot_response chat_history net = Some (o, w) ->
  (k < length (requests w))%nat ->
  verdict_of (net k (build_payload chat_history)) (Z.of_nat k) = Finish o' ->
  o = o' /\ length (requests w) = S k /\ sleeps w = backoff 1 k.
Proof.
  intros Hrun Hk Hv. apply get_bot_response_run in Hrun.
  destruct Hrun as (n & Hreq & Hn & Hend).
  rewrite Hreq, length_replicate in *.
  assert (Hat : verdict_at net (build_payload chat_history) 0 initial_world k = Finish o')
    by exact Hv.
  destruct Hend as [(m & -> & Hretry & Hlast & Hsl) | (_ & _ & Hretry & _)].
  - destruct (Nat.lt_ge_cases k m) as [Hkm|Hkm].
    + rewrite Hretry in Hat by assumption. discriminate.
    + assert (k = m) as -> by lia. rewrite Hlast in Hat. injection Hat as ->.
      repeat split; exact Hsl.
  - rewrite Hretry in Hat by assumption. discriminate.
Qed.

Lemma apologise_returns {A : Type} (m : may_raise A) (k : A -> outcome) :
  (forall a, exists ans sources, k a = Returned ans sources) ->
  exists ans sources, apologise m k = Returned ans sources.
Proof. intros Hk. destruct m as [a|e]; cbn; eauto. Qed.

(** The loop itself raises nothing but a request error, and only in its
    fifth iteration. *)
Lemma verdict_of_raised r retries e :
  verdict_of r retries = Finish (Raised e) ->
  max_retries - 1 <= retries /\
  exists ne, e = RequestException ne /\
    (r = Fails ne \/
     exists response, r = Responds response /\ json_body response = None /\ ne = JSONDecodeError).
Proof.
  assert (Hreq : forall ne, on_request_error ne retries = Finish (Raised e) ->
                 max_retries - 1 <= retries /\ e = RequestException ne).
  { intros ne. unfold on_request_error. rewrite Z.geb_leb.
    destruct (Z.leb_spec (max_retries - 1) retries); [|discriminate].
    intros [= <-]. now split. }
  assert (Hap : forall (A : Type) (m : may_raise A) (k : A -> outcome),
             (forall a, exists ans sources, k a = Returned ans sources) ->
             Finish (apologise m k) <> Finish (Raised e)).
  { intros A m k Hk [= H]. destruct (apologise_returns m k Hk) as (ans & srcs & Hret).
    congruence. }
  unfold verdict_of. destruct r as [response|ne].
  - destruct (ok response).
    + destruct (json_body response) eqn:Hbody.
      * intros H. exfalso. revert H. apply Hap. intros [v srcs]. eauto.
      * intros H. apply Hreq in H as [H ->]. split; [exact H|]. eauto 8.
    + destruct ((status_code response =? 429) || (status_code response >=? 500));
        [discriminate|].
      destruct (json_body response) eqn:Hbody.
      * intros H. exfalso. revert H. apply Hap. intros msg. eauto.
      * intros H. apply Hreq in H as [H ->]. split; [exact H|]. eauto 8.
  - intros H. apply Hreq in H as [H ->]. split; [exact H|]. eauto.
Qed.

(** In the fifth iteration only a 429 or 5xx reply asks for another round. *)
Lemma verdict_of_retry_last r retries :
  verdict_of r retries = Retry ->
  max_retries - 1 <= retries ->
  exists response, r = Responds response /\ retryable_status (status_code response).
Proof.
  intros Hv Hlast.
  assert (Hreq : forall ne, on_request_error ne retries <> Retry).
  { intros ne. unfold on_request_error. rewrite Z.geb_leb.
    destruct (Z.leb_spec (max_retries - 1) retries); [discriminate | lia]. }
  unfold verdict_of in Hv. destruct r as [response|ne]; [|now apply Hreq in Hv].
  exists response. split; [reflexivity|].
  unfold ok in Hv.
  destruct (Z.leb_spec 400 (status_code response)) as [H400|H400];
    destruct (Z.ltb_spec (status_code response) 600) as [H600|H600];
    cbn [andb negb] in Hv;
    try (destruct (json_body response); [discriminate | now apply Hreq in Hv]).
  destruct (Z.eqb_spec (status_code response) 429) as [H429|H429]; [now left|].
  destruct (status_code response >=? 500) eqn:H500; cbn [orb] in Hv.
  - right. rewrite Z.geb_leb in H500. apply Z.leb_le in H500. lia.
  - destruct (json_body response); [discriminate | now apply Hreq in Hv].
Qed.

Lemma verdict_of_client_error response retries error_result :
  400 <= status_code response < 500 -> status_code response <> 429 ->
  json_body response = Some error_result ->
  verdict_of (Responds response) retries =
  Finish (apologise (error_message error_result (status_code response))
            (fun msg => Returned (Apology (Exception msg)) [])).
Proof.
  intros Hst Hne Hbody. unfold verdict_of, ok.
  replace (400 <=? status_code response) with true by (symmetry; apply Z.leb_le; lia).
  replace (status_code response <? 600) with true by (symmetry; apply Z.ltb_lt; lia).
  replace (status_code response =? 429) with false by (symmetry; apply Z.eqb_neq; lia).
  replace (status_code response >=? 500) with false
    by (symmetry; rewrite Z.geb_leb; apply Z.leb_gt; lia).
  cbn. now rewrite Hbody.
Qed.

(** ** What is raised and what is returned as an apology *)

Lemma raised_is_not_returned (run : option (outcome * world)) ans sources w :
  run = Some (Returned ans sources, w) ->
  ~ (exists e w', run = Some (Raised e, w')).
Proof. intros -> (e & w' & H). discriminate H. Qed.

(** C2, as stated, fails: a 200 without the expected structure and a 400
    both end in a returned apology, not in a raised error. *)
Lemma C2_counterexample_errors_returned_as_apology :
  (get_bot_response [] (always (Responds no_structure)) =
     Some (Returned (Apology invalid_structure) [], once (build_payload [])) /\
   ~ (exists e w, get_bot_response [] (always (Responds no_structure)) = Some (Raised e, w))) /\
  (get_bot_response [] (always (Responds bad_key)) =
     Some (Returned (Apology (Exception (JStr "bad key"))) [], once (build_payload [])) /\
   ~ (exists e w, get_bot_response [] (always (Responds bad_key)) = Some (Raised e, w))).
Proof.
  split; (split; [reflexivity | eapply raised_is_not_returned; reflexivity]).
Qed.

(** C2, amended: [get_bot_response] raises only once its fifth request has
    been posted: the max-retries exception when that request too was answered
    429 or 5xx, or the request error when it failed at the network level or
    its body could not be decoded; a 2xx whose JSON body cannot be used and a
    4xx other than 429 with a JSON body are not raised: the function's own
    generic handler returns them as the pair (apology text, empty source
    list). *)
Theorem C2_raises_only_after_fifth_request chat_history net o w :
  get_bot_response chat_history net = Some (o, w) ->
  (forall e, o = Raised e ->
     length (requests w) = 5%nat /\
     ((e = retries_exhausted /\
       exists r, net 4%nat (build_payload chat_history) = Responds r /\
                 retryable_status (status_code r)) \/
      (exists ne, e = RequestException ne /\
         (net 4%nat (build_payload chat_history) = Fails ne \/
          exists r, net 4%nat (build_payload chat_history) = Responds r /\
                    json_body r = None /\ ne = JSONDecodeError)))) /\
  (forall k r result e,
     (k < length (requests w))%nat ->
     net k (build_payload chat_history) = Responds r ->
     200 <= status_code r < 300 -> json_body r = Some result ->
     handle_ok result = Err e ->
     o = Returned (Apology e) []) /\
  (forall k r error_result,
     (k < length (requests w))%nat ->
     net k (build_payload chat_history) = Responds r ->
     400 <= status_code r < 500 -> status_code r <> 429 ->
     json_body r = Some error_result ->
     exists e, o = Returned (Apology e) [] /\
       forall msg, error_message error_result (status_code r) = Ok msg -> e = Exception msg).
Proof.
  intros Hrun. split; [|split].
  - intros e ->. apply get_bot_response_run in Hrun.
    destruct Hrun as (n & Hreq & Hn & Hend). rewrite Hreq, length_replicate.
    destruct Hend as [(m & -> & _ & Hlast & _) | (Hsum & Hex & Hretry & _)].
    + unfold verdict_at in Hlast. cbn [initial_world requests length] in Hlast.
      apply verdict_of_raised in Hlast as (Hm & ne & -> & Hwhy).
      unfold max_retries in Hm. assert (m = 4%nat) as -> by lia.
      split; [reflexivity|]. right. exists ne. split; [reflexivity | exact Hwhy].
    + injection Hex as ->. unfold max_retries in Hsum. assert (n = 5%nat) as -> by lia.
      split; [reflexivity|]. left. split; [reflexivity|].
      specialize (Hretry 4%nat ltac:(lia)). unfold verdict_at in Hretry.
      cbn [initial_world requests length] in Hretry.
      apply verdict_of_retry_last in Hretry; [exact Hretry | unfold max_retries; lia].
  - intros k r result e Hk Hnet Hst Hbody Herr.
    destruct (finishing_reply _ _ _ _ k (Returned (Apology e) []) Hrun Hk) as (-> & _);
      [|reflexivity].
    rewrite Hnet, (verdict_of_answer r _ result) by (try apply ok_2xx; assumption).
    now rewrite Herr.
  - intros k r error_result Hk Hnet Hst Hne Hbody.
    pose proof (verdict_of_client_error r (Z.of_nat k) error_result Hst Hne Hbody) as Hv.
    rewrite <- Hnet in Hv.
    destruct (finishing_reply _ _ _ _ k _ Hrun Hk Hv) as (-> & _).
    destruct (error_message error_result (status_code r)) as [msg|e]; cbn.
    + exists (Exception msg). split; [reflexivity|]. now intros ? [= <-].
    + exists e. split; [reflexivity|]. discriminate.
Qed.

Lemma C2_raises_only_witness :
  (get_bot_response [] (always (Responds server_error)) =
     Some (Raised retries_exhausted,
           {| requests := replicate 5 (build_payload []); sleeps := [1; 2; 4; 8; 16] |}) /\
   length (replicate 5 (build_payload [])) = 5%nat /\
   ((retries_exhausted = retries_exhausted /\
     exists r, Responds server_error = Responds r /\ retryable_status (status_code r)) \/
    (exists ne, retries_exhausted = RequestException ne /\
       (Responds server_error = Fails ne \/
        exists r, Responds server_error = Responds r /\
                  json_body r = None /\ ne = JSONDecodeError)))) /\
  (get_bot_response [] (always (Responds no_structure)) =
     Some (Returned (Apology invalid_structure) [], once (build_payload [])) /\
   Returned (Apology invalid_structure) [] = Returned (Apology invalid_structure) []) /\
  (get_bot_response [] (always (Responds bad_key)) =
     Some (Returned (Apology (Exception (JStr "bad key"))) [], once (build_payload [])) /\
   exists e, Returned (Apology (Exception (JStr "bad key"))) [] = Returned (Apology e) [] /\
     forall msg, error_message (JObj [("error", JObj [("message", JStr "bad key")])]) 400
                 = Ok msg -> e = Exception msg).
Proof.
  split; [|split].
  - split; [reflexivity|].
    apply (proj1 (C2_raises_only_after_fifth_request [] (always (Responds server_error))
                    (Raised retries_exhausted)
                    {| requests := replicate 5 (build_payload []);
                       sleeps := [1; 2; 4; 8; 16] |} eq_refl) retries_exhausted eq_refl).
  - split; [reflexivity|].
    apply (proj1 (proj2 (C2_raises_only_after_fifth_request []
                           (always (Responds no_structure))
                           (Returned (Apology invalid_structure) [])
                           (once (build_payload [])) eq_refl))
             0%nat no_structure (JObj []) invalid_structure);
      [cbn; lia | reflexivity | cbn; lia | reflexivity | reflexivity].
  - split; [reflexivity|].
    apply (proj2 (proj2 (C2_raises_only_after_fifth_request []
                           (always (Responds bad_key))
                           (Returned (Apology (Exception (JStr "bad key"))) [])
                           (once (build_payload [])) eq_refl))
             0%nat bad_key (JObj [("error", JObj [("message", JStr "bad key")])]));
      [cbn; lia | reflexivity | cbn; lia | cbn; lia | reflexivity].
Defined.

(** C3, as stated, fails: on a 400 carrying [{"error": {"message": "bad key"}}]
    nothing is raised; the call returns an apology built from that message. *)
Lemma C3_counterexample_400_is_not_raised :
  get_bot_response [] (always (Responds bad_key)) =
    Some (Returned (Apology (Exception (JStr "bad key"))) [], once (build_payload [])) /\
  apology_text (Apology (Exception (JStr "bad key"))) =
    Some "Sorry, I encountered an error: bad key" /\
  ~ (exists w, get_bot_response [] (always (Responds bad_key)) =
               Some (Raised (Exception (JStr "bad key")), w)).
Proof.
  split; [reflexivity|]. split; [reflexivity|].
  intros (w & H). discriminate H.
Qed.

(** C3, amended: every reply with a 4xx status other than 429 and a JSON
    body, whatever that body is, ends the call at once, with no further
    request and no further sleep, and the call returns (does not raise) an
    apology with the empty source list: the apology for [Exception(message)]
    when a message can be read from the body (the provider-supplied
    [error.message], or the default wording when the body names none), and
    the apology for the exception of the failed read otherwise (a body or an
    [error] entry that is not a dict).  When it is the reply to the first
    request, one request was posted and nothing was slept. *)
Theorem C3_client_error_returns_apology chat_history net o w k r error_result :
  get_bot_response chat_history net = Some (o, w) ->
  (k < length (requests w))%nat ->
  net k (build_payload chat_history) = Responds r ->
  400 <= status_code r < 500 -> status_code r <> 429 ->
  json_body r = Some error_result ->
  (exists e,
     o = Returned (Apology e) [] /\
     (forall msg, error_message error_result (status_code r) = Ok msg -> e = Exception msg) /\
     (forall e', error_message error_result (status_code r) = Err e' -> e = e')) /\
  (forall fields details msg,
     error_result = JObj fields ->
     dict_lookup fields "error" = Some (JObj details) ->
     dict_lookup details "message" = Some msg ->
     o = Returned (Apology (Exception msg)) []) /\
  length (requests w) = S k /\
  sleeps w = backoff 1 k /\
  (k = 0%nat -> w = once (build_payload chat_history)).
Proof.
  intros Hrun Hk Hnet Hst Hne Hbody.
  pose proof (verdict_of_client_error r (Z.of_nat k) error_result Hst Hne Hbody) as Hv.
  rewrite <- Hnet in Hv.
  destruct (finishing_reply _ _ _ _ k _ Hrun Hk Hv) as (Ho & Hlen & Hsl).
  split; [|split; [|split; [exact Hlen | split; [exact Hsl|]]]].
  - rewrite Ho. destruct (error_message error_result (status_code r)) as [msg|e];
      cbn [apologise].
    + exists (Exception msg). split; [reflexivity|]. split; [|discriminate].
      now intros ? [= <-].
    + exists e. split; [reflexivity|]. split; [discriminate|]. now intros ? [= <-].
  - intros fields details msg -> Herr Hmsg. rewrite Ho.
    unfold error_message, py_get. rewrite Herr. cbn [bind]. now rewrite Hmsg.
  - intros ->. destruct (get_bot_response_posts _ _ _ _ Hrun) as (n & Hreq & _).
    rewrite Hreq, length_replicate in Hlen. injection Hlen as ->.
    destruct w as [rq sl]. cbn in Hreq, Hsl. now subst.
Qed.

Lemma C3_client_error_witness :
  (get_bot_response [] (always (Responds bad_key)) =
     Some (Returned (Apology (Exception (JStr "bad key"))) [], once (build_payload [])) /\
   Returned (Apology (Exception (JStr "bad key"))) [] =
     Returned (Apology (Exception (JStr "bad key"))) [] /\
   length (requests (once (build_payload []))) = 1%nat /\
   sleeps (once (build_payload [])) = backoff 1 0) /\
  (get_bot_response [] (always (Responds quota_exceeded)) =
     Some (Returned (Apology AttributeError) [], once (build_payload [])) /\
   exists e,
     Returned (Apology AttributeError) [] = Returned (Apology e) [] /\
     (forall msg, error_message (JObj [("error", JStr "quota exceeded")]) 403 = Ok msg ->
                  e = Exception msg) /\
     (forall e', error_message (JObj [("error", JStr "quota exceeded")]) 403 = Err e' ->
                 e = e')).
Proof.
  split.
  - split; [reflexivity|].
    destruct (C3_client_error_returns_apology [] (always (Responds bad_key))
                (Returned (Apology (Exception (JStr "bad key"))) [])
                (once (build_payload [])) 0%nat bad_key
                (JObj [("error", JObj [("message", JStr "bad key")])]))
      as (_ & Hmsg & Hlen & Hsl & _);
      [reflexivity | cbn; lia | reflexivity | cbn; lia | cbn; lia | reflexivity |].
    split; [|split; [exact Hlen | exact Hsl]].
    apply (Hmsg [("error", JObj [("message", JStr "bad key")])] [("message", JStr "bad key")]);
      reflexivity.
  - split; [reflexivity|].
    apply (C3_client_error_returns_apology [] (always (Responds quota_exceeded))
             (Returned (Apology AttributeError) []) (once (build_payload [])) 0%nat
             quota_exceeded (JObj [("error", JStr "quota exceeded")]));
      [reflexivity | cbn; lia | reflexivity | cbn; lia | cbn; lia | reflexivity].
Defined.

Lemma handle_ok_unusable result :
  (forall v, extract_text result = Ok v -> truthy v = false) ->
  handle_ok result = Err (unusable_text_error result).
Proof.
  unfold unusable_text_error, extract_text, handle_ok. intros H.
  destruct (get_candidate result) as [candidate|e]; cbn [bind] in *; [|reflexivity].
  destruct (get_text candidate) as [v|e]; cbn [bind] in *; [|reflexivity].
  now rewrite (H v eq_refl).
Qed.

(** C4, as stated, fails: on a 200 whose text is the empty string nothing is
    raised; the call returns an apology for the invalid structure. *)
Lemma C4_counterexample_empty_text_is_not_raised :
  get_bot_response [] (always (Responds empty_text)) =
    Some (Returned (Apology invalid_structure) [], once (build_payload [])) /\
  apology_text (Apology invalid_structure) =
    Some "Sorry, I encountered an error: Invalid response structure from API." /\
  ~ (exists e w, get_bot_response [] (always (Responds empty_text)) = Some (Raised e, w)).
Proof.
  split; [reflexivity|]. split; [reflexivity|].
  intros (e & w & H). discriminate H.
Qed.

(** C4, amended: a 2xx reply with a JSON body from which no non-empty text
    can be extracted (the text is empty, or extracting it fails) ends the
    call at once, with no further request and no further sleep, and the call
    returns (does not raise) an apology with the empty source list; when the
    extraction itself succeeds the apology is for
    "Invalid response structure from API.". *)
Theorem C4_unusable_text_returns_apology chat_history net o w k r result :
  get_bot_response chat_history net = Some (o, w) ->
  (k < length (requests w))%nat ->
  net k (build_payload chat_history) = Responds r ->
  200 <= status_code r < 300 ->
  json_body r = Some result ->
  (forall v, extract_text result = Ok v -> truthy v = false) ->
  o = Returned (Apology (unusable_text_error result)) [] /\
  (forall v, extract_text result = Ok v -> o = Returned (Apology invalid_structure) []) /\
  length (requests w) = S k /\
  sleeps w = backoff 1 k.
Proof.
  intros Hrun Hk Hnet Hst Hbody Hbad.
  pose proof (verdict_of_answer r (Z.of_nat k) result (ok_2xx r Hst) Hbody) as Hv.
  rewrite (handle_ok_unusable result Hbad), <- Hnet in Hv. cbn [apologise] in Hv.
  destruct (finishing_reply _ _ _ _ k _ Hrun Hk Hv) as (Ho & Hlen & Hsl).
  repeat split; try assumption.
  intros v Hv'. rewrite Ho. unfold unusable_text_error. now rewrite Hv'.
Qed.

Lemma C4_unusable_text_witness :
  (forall v, extract_text (answer_body "") = Ok v -> truthy v = false) /\
  get_bot_response [] (always (Responds empty_text)) =
    Some (Returned (Apology invalid_structure) [], once (build_payload [])) /\
  Returned (Apology invalid_structure) [] =
    Returned (Apology (unusable_text_error (answer_body ""))) [] /\
  (forall v, extract_text (answer_body "") = Ok v ->
     Returned (Apology invalid_structure) [] = Returned (Apology invalid_structure) []) /\
  length (requests (once (build_payload []))) = 1%nat /\
  sleeps (once (build_payload [])) = backoff 1 0.
Proof.
  assert (H : forall v, extract_text (answer_body "") = Ok v -> truthy v = false)
    by (intros v [= <-]; reflexivity).
  split; [exact H|]. split; [reflexivity|].
  apply (C4_unusable_text_returns_apology [] (always (Responds empty_text))
           (Returned (Apology invalid_structure) []) (once (build_payload []))
           0%nat empty_text (answer_body ""));
    [reflexivity | cbn; lia | reflexivity | cbn; lia | reflexivity | exact H].
Defined.

(** ** A 2xx reply with a JSON body always makes the call return *)

Lemma get_candidate_empty fields :
  dict_lookup fields "candidates" = Some (JArr []) ->
  handle_ok (JObj fields) = Err IndexError.
Proof. intros H. unfold handle_ok, get_candidate, py_get. now rewrite H. Qed.

(** C9: the call always ends, and if any reply it consumed had a 2xx status
    and a JSON body, of whatever shape, it ended by returning a pair, never by
    raising: the text and sources of the body when it can be handled, and
    otherwise the apology for the exception with the empty source list; in
    particular an empty [candidates] list gives the apology for the index
    error and an empty text the apology for the invalid structure. *)
Theorem C9_2xx_json_reply_never_raises chat_history net :
  exists o w,
    get_bot_response chat_history net = Some (o, w) /\
    forall k r result,
      (k < length (requests w))%nat ->
      net k (build_payload chat_history) = Responds r ->
      200 <= status_code r < 300 ->
      json_body r = Some result ->
      (exists ans sources, o = Returned ans sources) /\
      (forall e, handle_ok result = Err e -> o = Returned (Apology e) []) /\
      (forall v sources, handle_ok result = Ok (v, sources) -> o = Returned (Text v) sources) /\
      (forall fields, result = JObj fields ->
         dict_lookup fields "candidates" = Some (JArr []) ->
         o = Returned (Apology IndexError) []) /\
      (forall v, extract_text result = Ok v -> truthy v = false ->
         o = Returned (Apology invalid_structure) []).
Proof.
  destruct (get_bot_response_total chat_history net) as (o & w & Hrun).
  exists o, w. split; [exact Hrun|].
  intros k r result Hk Hnet Hst Hbody.
  pose proof (verdict_of_answer r (Z.of_nat k) result (ok_2xx r Hst) Hbody) as Hv.
  rewrite <- Hnet in Hv.
  destruct (finishing_reply _ _ _ _ k _ Hrun Hk Hv) as (-> & _).
  assert (Herr : forall e, handle_ok result = Err e ->
            apologise (handle_ok result) (fun ts => Returned (Text (fst ts)) (snd ts)) =
            Returned (Apology e) []) by (intros e ->; reflexivity).
  split; [|split; [|split; [|split]]].
  - apply apologise_returns. intros [v sources]. eauto.
  - exact Herr.
  - intros v sources ->. reflexivity.
  - intros fields -> Hc. apply Herr. now apply get_candidate_empty.
  - intros v Hv' Hfalse. apply Herr. unfold extract_text in Hv'. unfold handle_ok.
    destruct (get_candidate result) as [candidate|e]; cbn [bind] in *; [|discriminate].
    rewrite Hv'. cbn [bind]. now rewrite Hfalse.
Qed.

Lemma C9_2xx_json_reply_witness :
  exists o w,
    get_bot_response [] (always (Responds no_candidates)) = Some (o, w) /\
    o = Returned (Apology IndexError) [].
Proof.
  destruct (C9_2xx_json_reply_never_raises [] (always (Responds no_candidates)))
    as (o & w & Hrun & Hreply).
  exists o, w. split; [exact Hrun|].
  destruct (get_bot_response_posts _ _ _ _ Hrun) as (n & Hreq & _).
  destruct (Hreply 0%nat no_candidates (JObj [("candidates", JArr [])]))
    as (_ & _ & _ & Hempty & _);
    [rewrite Hreq; cbn; lia | reflexivity | cbn; lia | reflexivity |].
  now apply (Hempty [("candidates", JArr [])]).
Defined.

(** ** The grounding sources *)

Lemma truthy_not_empty_or_missing v : truthy v = true -> ~ empty_or_missing v.
Proof. intros H [-> | ->]; discriminate H. Qed.

Lemma has_web_uri_title_true attr :
  has_web_uri_title attr = Ok true ->
  complete attr = true /\ make_source attr = Ok (source_of attr).
Proof.
  unfold has_web_uri_title, make_source, complete, source_of, web_field.
  destruct attr as [| | | | | |fields]; try discriminate. cbn [py_get].
  destruct (dict_lookup fields "web") as [web|]; cbn [bind truthy]; [|discriminate].
  destruct (truthy web) eqn:Hweb; [|discriminate].
  destruct web as [| | | | | |wf]; try discriminate. cbn [py_get].
  destruct (dict_lookup wf "uri") as [u|]; cbn [bind truthy]; [|discriminate].
  destruct (truthy u) eqn:Hu; [|discriminate].
  destruct (dict_lookup wf "title") as [t|]; cbn [bind truthy]; [|discriminate].
  intros [= ->]. now split.
Qed.

Lemma has_web_uri_title_false attr :
  has_web_uri_title attr = Ok false -> complete attr = false.
Proof.
  unfold has_web_uri_title, complete, web_field.
  destruct attr as [| | | | | |fields]; try discriminate. cbn [py_get].
  destruct (dict_lookup fields "web") as [web|]; cbn [bind truthy]; [|reflexivity].
  destruct web as [| | | | | |wf]; try reflexivity;
    try (destruct (truthy _); discriminate).
  destruct wf as [|kv wf']; [reflexivity|].
  remember (kv :: wf') as wf eqn:Hwf. cbn [py_get]. intros H. rewrite Hwf in H at 1.
  revert H.
  destruct (dict_lookup wf "uri") as [u|]; cbn [bind truthy]; [|reflexivity].
  destruct (truthy u); [|reflexivity].
  destruct (dict_lookup wf "title") as [t|]; cbn [bind truthy]; [|intros; apply andb_false_r].
  now intros [= ->].
Qed.

(** The comprehension keeps, in order, exactly the complete attributions. *)
Lemma collect_sources_filter attrs : forall sources,
  collect_sources attrs = Ok sources ->
  sources = map source_of (List.filter complete attrs).
Proof.
  induction attrs as [|attr rest IH]; intros sources; cbn [collect_sources List.filter].
  - now intros [= <-].
  - destruct (has_web_uri_title attr) as [[|]|e] eqn:Hkeep; cbn [bind]; [| |discriminate].
    + apply has_web_uri_title_true in Hkeep as [-> ->]. cbn [bind].
      destruct (collect_sources rest) as [ss|e]; cbn [bind]; [|discriminate].
      intros [= <-]. cbn [map]. now rewrite <- (IH ss eq_refl).
    + apply has_web_uri_title_false in Hkeep as ->. apply IH.
Qed.

Lemma filter_complete_has_title_and_uri attrs :
  Forall has_title_and_uri (map source_of (List.filter complete attrs)).
Proof.
  induction attrs as [|attr rest IH]; cbn [List.filter map]; [constructor|].
  destruct (complete attr) eqn:Hc; [|exact IH].
  cbn [map]. constructor; [|exact IH].
  unfold complete in Hc. apply andb_true_iff in Hc. exact Hc.
Qed.

Lemma get_sources_has_title_and_uri candidate sources :
  get_sources candidate = Ok sources -> Forall has_title_and_uri sources.
Proof.
  unfold get_sources.
  destruct (py_get candidate "groundingMetadata" (JObj [])) as [gm|e]; cbn [bind];
    [|discriminate].
  destruct (truthy gm); [|intros [= <-]; constructor].
  destruct (py_contains "groundingAttributions" gm) as [[|]|e]; cbn [bind];
    [| intros [= <-]; constructor | discriminate].
  destruct (py_getitem gm "groundingAttributions") as [attributions|e]; cbn [bind];
    [|discriminate].
  destruct (py_iter attributions) as [attrs|e]; cbn [bind]; [|discriminate].
  intros H. apply collect_sources_filter in H as ->.
  apply filter_complete_has_title_and_uri.
Qed.

Lemma get_sources_of_attributions candidate attrs :
  grounding_attributions candidate = Some (JArr attrs) ->
  get_sources candidate = collect_sources attrs.
Proof.
  unfold grounding_attributions, get_sources.
  destruct candidate as [| | | | | |fields]; try discriminate. cbn [py_get].
  destruct (dict_lookup fields "groundingMetadata") as [[| | | | | |metadata]|];
    try discriminate.
  intros H. cbn [bind py_contains py_getitem]. rewrite H. cbn [bind py_iter].
  destruct metadata; [discriminate H | reflexivity].
Qed.

Lemma get_sources_without_metadata fields :
  dict_lookup fields "groundingMetadata" = None \/
  dict_lookup fields "groundingMetadata" = Some (JObj []) ->
  get_sources (JObj fields) = Ok [].
Proof. unfold get_sources, py_get. intros [-> | ->]; reflexivity. Qed.

(** What a returned pair is made of: an apology comes with no source, a text
    comes with the sources of the body it was taken from. *)
Lemma verdict_of_returned r retries ans sources :
  verdict_of r retries = Finish (Returned ans sources) ->
  (exists e, ans = Apology e /\ sources = []) \/
  (exists response result v,
     r = Responds response /\ json_body response = Some result /\
     ans = Text v /\ handle_ok result = Ok (v, sources)).
Proof.
  assert (Hreq : forall ne, on_request_error ne retries <> Finish (Returned ans sources)).
  { intros ne. unfold on_request_error. now destruct (retries >=? max_retries - 1). }
  unfold verdict_of. destruct r as [response|ne]; [|intros H; now apply Hreq in H].
  destruct (ok response).
  - destruct (json_body response) as [result|] eqn:Hbody; [|intros H; now apply Hreq in H].
    destruct (handle_ok result) as [[v srcs]|e] eqn:Hok; cbn [apologise fst snd];
      intros [= <- <-].
    + right. exists response, result, v. auto.
    + left. eauto.
  - destruct ((status_code response =? 429) || (status_code response >=? 500));
      [discriminate|].
    destruct (json_body response) as [error_result|]; [|intros H; now apply Hreq in H].
    destruct (error_message error_result (status_code response)) as [msg|e];
      cbn [apologise]; intros [= <- <-]; left; eauto.
Qed.

Lemma handle_ok_sources result v sources :
  handle_ok result = Ok (v, sources) ->
  exists candidate, get_candidate result = Ok candidate /\ get_sources candidate = Ok sources.
Proof.
  unfold handle_ok.
  destruct (get_candidate result) as [candidate|e]; cbn [bind]; [|discriminate].
  destruct (get_text candidate) as [t|e]; cbn [bind]; [|discriminate].
  destruct (negb (truthy t)); [discriminate|].
  destruct (get_sources candidate) as [srcs|e] eqn:Hsrc; cbn [bind]; [|discriminate].
  intros [= _ <-]. exists candidate. now split.
Qed.

(** C5: every source in a pair returned by [get_bot_response] has a [uri] and
    a [title] that are neither missing nor empty; the sources returned with a
    text are those of the candidate of the last reply, namely its complete
    grounding attributions in their original order, an attribution lacking
    either field being left out; and a candidate whose [groundingMetadata] is
    absent or empty yields the empty source list, not an exception. *)
Theorem C5_sources_are_the_complete_attributions :
  (forall chat_history net ans sources w,
     get_bot_response chat_history net = Some (Returned ans sources, w) ->
     Forall (fun s => has_title_and_uri s /\
                      ~ empty_or_missing (uri s) /\ ~ empty_or_missing (title s)) sources) /\
  (forall chat_history net v sources w,
     get_bot_response chat_history net = Some (Returned (Text v) sources, w) ->
     exists r result candidate,
       net (length (requests w) - 1)%nat (build_payload chat_history) = Responds r /\
       json_body r = Some result /\
       get_candidate result = Ok candidate /\
       get_sources candidate = Ok sources) /\
  (forall candidate attrs sources,
     grounding_attributions candidate = Some (JArr attrs) ->
     get_sources candidate = Ok sources ->
     sources = map source_of (List.filter complete attrs)) /\
  (forall attr,
     empty_or_missing (web_field attr "uri") \/ empty_or_missing (web_field attr "title") ->
     complete attr = false) /\
  (forall fields,
     dict_lookup fields "groundingMetadata" = None \/
     dict_lookup fields "groundingMetadata" = Some (JObj []) ->
     get_sources (JObj fields) = Ok []).
Proof.
  assert (Hlast : forall chat_history net ans sources w,
            get_bot_response chat_history net = Some (Returned ans sources, w) ->
            verdict_of (net (length (requests w) - 1)%nat (build_payload chat_history))
                       (Z.of_nat (length (requests w) - 1)) = Finish (Returned ans sources)).
  { intros chat_history net ans sources w Hrun. apply get_bot_response_run in Hrun.
    destruct Hrun as (n & Hreq & _ & [(m & -> & _ & Hv & _) | (_ & Hex & _)]);
      [|discriminate Hex].
    rewrite Hreq, length_replicate.
    replace (S m - 1)%nat with m by lia. exact Hv. }
  split; [|split; [|split; [|split]]].
  - intros chat_history net ans sources w Hrun.
    apply Hlast, verdict_of_returned in Hrun.
    destruct Hrun as [(e & _ & ->) | (r & result & v & _ & _ & _ & Hok)]; [constructor|].
    apply handle_ok_sources in Hok as (candidate & _ & Hsrc).
    apply get_sources_has_title_and_uri in Hsrc.
    eapply Forall_impl; [exact Hsrc|]. intros s [Hu Ht].
    split; [now split|]. split; now apply truthy_not_empty_or_missing.
  - intros chat_history net v sources w Hrun.
    apply Hlast in Hrun.
    destruct (verdict_of_returned _ _ _ _ Hrun)
      as [(e & He & _) | (r & result & v' & Hr & Hbody & _ & Hok)]; [discriminate He|].
    pose proof Hok as Hok'. apply handle_ok_sources in Hok' as (candidate & Hc & Hsrc).
    exists r, result, candidate. auto.
  - intros candidate attrs sources Hattrs Hsrc.
    rewrite (get_sources_of_attributions _ _ Hattrs) in Hsrc.
    now apply collect_sources_filter.
  - intros attr H. unfold complete.
    destruct H as [[-> | ->] | [-> | ->]]; cbn [truthy String.eqb negb];
      first [reflexivity | apply andb_false_r].
  - apply get_sources_without_metadata.
Qed.

Lemma C5_sources_witness :
  get_bot_response [] (always (Responds grounded)) =
    Some (Returned (Text (JStr "Use SEO.")) two_sources, once (build_payload [])) /\
  two_sources = map source_of (List.filter complete five_attributions) /\
  Forall (fun s => has_title_and_uri s /\
                   ~ empty_or_missing (uri s) /\ ~ empty_or_missing (title s)) two_sources.
Proof.
  destruct C5_sources_are_the_complete_attributions as (Hall & _ & Hfilter & _).
  split; [reflexivity|]. split.
  - apply (Hfilter grounded_candidate five_attributions two_sources); reflexivity.
  - apply (Hall [] (always (Responds grounded)) (Text (JStr "Use SEO.")) two_sources
             (once (build_payload []))).
    reflexivity.
Defined.

(** ** The chat history as a shared object *)

Lemma alloc_extends (st : gmap loc object) o :
  st ⊆ (alloc st o).2 /\ (alloc st o).2 !! (alloc st o).1 = Some o.
Proof.
  unfold alloc. cbn [fst snd]. split.
  - apply insert_subseteq. apply not_elem_of_dom. apply is_fresh.
  - apply lookup_insert_eq.
Qed.

Lemma read_turns_weaken (st st' : gmap loc object) refs ms :
  st ⊆ st' -> read_turns st refs = Some ms -> read_turns st' refs = Some ms.
Proof.
  intros Hsub. revert ms. induction refs as [|l rest IH]; intros ms; cbn [read_turns].
  - auto.
  - destruct (st !! l) as [[items|m]|] eqn:Hl; try discriminate.
    rewrite (lookup_weaken _ _ _ _ Hl Hsub).
    destruct (read_turns st rest) as [ms'|]; [|discriminate].
    now rewrite (IH ms' eq_refl).
Qed.

Lemma read_turns_length (st : gmap loc object) refs : forall ms,
  read_turns st refs = Some ms -> length ms = length refs.
Proof.
  induction refs as [|l rest IH]; intros ms; cbn [read_turns].
  - now intros [= <-].
  - destruct (st !! l) as [[items|m]|]; try discriminate.
    destruct (read_turns st rest) as [ms'|]; [|discriminate].
    intros [= <-]. cbn [length]. now rewrite (IH ms' eq_refl).
Qed.

Lemma read_turns_drop (st : gmap loc object) n : forall refs ms,
  read_turns st refs = Some ms -> read_turns st (drop n refs) = Some (drop n ms).
Proof.
  induction n as [|n IH]; intros refs ms; [now rewrite !drop_0|].
  destruct refs as [|l rest]; cbn [read_turns drop].
  - now intros [= <-].
  - destruct (st !! l) as [[items|m]|]; try discriminate.
    destruct (read_turns st rest) as [ms'|] eqn:Hrest; [|discriminate].
    intros [= <-]. cbn [drop]. now apply IH.
Qed.

Lemma read_turns_slice_last (st : gmap loc object) n refs ms :
  read_turns st refs = Some ms ->
  read_turns st (slice_last n refs) = Some (slice_last n ms).
Proof.
  intros H. unfold slice_last. destruct n; [exact H|].
  rewrite (read_turns_length _ _ _ H). now apply read_turns_drop.
Qed.

Lemma keep_non_system_reads (st : gmap loc object) refs : forall ms,
  read_turns st refs = Some ms ->
  exists kept, keep_non_system st refs = Some kept /\
               read_turns st kept = Some (non_system ms).
Proof.
  induction refs as [|l rest IH]; intros ms; cbn [read_turns keep_non_system].
  - intros [= <-]. now exists [].
  - destruct (st !! l) as [[items|m]|] eqn:Hl; try discriminate.
    destruct (read_turns st rest) as [ms'|]; [|discriminate].
    intros [= <-]. destruct (IH ms' eq_refl) as (kept & -> & Hkept).
    eexists. split; [reflexivity|].
    unfold non_system. rewrite filter_cons.
    destruct (decide (role m <> "system")); [|exact Hkept].
    cbn [read_turns]. rewrite Hl. unfold non_system in Hkept. now rewrite Hkept.
Qed.

(** Building the payload only adds objects to the store, and what it builds
    reads back as the contents of [build_payload]. *)
Lemma build_contents_in_spec (st : gmap loc object) chat_history turns :
  read_history st chat_history = Some turns ->
  exists final st',
    build_contents_in st chat_history = Some (final, st') /\
    st ⊆ st' /\
    read_history st' final = Some (contents (build_payload turns)).
Proof.
  unfold read_history, build_contents_in.
  destruct (st !! chat_history) as [[items|m]|]; try discriminate.
  intros Hread. destruct (keep_non_system_reads st items turns Hread) as (kept & -> & Hkept).
  destruct (alloc st (ListObj kept)) as [l1 st1] eqn:E1.
  destruct (alloc st1 (ListObj (slice_last max_history_length kept))) as [l2 st2] eqn:E2.
  destruct (alloc st2 (TurnObj system_message)) as [sys st3] eqn:E3.
  destruct (alloc st3 (ListObj [sys])) as [l3 st4] eqn:E4.
  destruct (alloc st4 (ListObj ([sys] ++ slice_last max_history_length kept)%list))
    as [final st5] eqn:E5.
  pose proof (alloc_extends st (ListObj kept)) as [S1 _]. rewrite E1 in S1.
  pose proof (alloc_extends st1 (ListObj (slice_last max_history_length kept))) as [S2 _].
  rewrite E2 in S2.
  pose proof (alloc_extends st2 (TurnObj system_message)) as [S3 L3]. rewrite E3 in S3, L3.
  pose proof (alloc_extends st3 (ListObj [sys])) as [S4 _]. rewrite E4 in S4.
  pose proof (alloc_extends st4 (ListObj ([sys] ++ slice_last max_history_length kept)%list))
    as [S5 L5].
  rewrite E5 in S5, L5. cbn [fst snd] in *.
  assert (S05 : st ⊆ st5) by (do 4 (etrans; [eassumption|]); exact S5).
  exists final, st5. split; [reflexivity|]. split; [exact S05|].
  rewrite L5. cbn [app read_turns].
  assert (S35 : st3 ⊆ st5) by (etrans; eassumption).
  rewrite (lookup_weaken _ _ _ _ L3 S35).
  apply (read_turns_slice_last st max_history_length) in Hkept.
  rewrite (read_turns_weaken _ _ _ _ S05 Hkept). reflexivity.
Qed.

Lemma read_history_weaken (st st' : gmap loc object) l turns :
  st ⊆ st' -> read_history st l = Some turns -> read_history st' l = Some turns.
Proof.
  intros Hsub. unfold read_history.
  destruct (st !! l) as [[items|m]|] eqn:Hl; try discriminate.
  rewrite (lookup_weaken _ _ _ _ Hl Hsub). now apply read_turns_weaken.
Qed.

(** C10: a call of [get_bot_response] on a history passed by reference ends
    (returning or raising exactly as on the turns the history holds) in a
    store that extends the one it started from: no object that existed is
    changed, so the [chat_history] list holds the same references in the same
    order, each to an unchanged turn. *)
Theorem C10_chat_history_is_not_mutated (st : gmap loc object) chat_history turns net :
  read_history st chat_history = Some turns ->
  exists o w st',
    get_bot_response_in st chat_history net = Some (o, w, st') /\
    get_bot_response turns net = Some (o, w) /\
    st ⊆ st' /\
    st' !! chat_history = st !! chat_history /\
    read_history st' chat_history = Some turns.
Proof.
  intros Hread.
  destruct (build_contents_in_spec st chat_history turns Hread)
    as (final & st' & Hbuild & Hsub & Hfinal).
  destruct (get_bot_response_total turns net) as (o & w & Hrun).
  exists o, w, st'. unfold get_bot_response_in. rewrite Hbuild, Hfinal.
  unfold get_bot_response in Hrun.
  change {| contents := contents (build_payload turns); tools := [google_search] |}
    with (build_payload turns).
  rewrite Hrun. split; [reflexivity|]. split; [exact Hrun|]. split; [exact Hsub|].
  split; [|now apply (read_history_weaken st)].
  unfold read_history in Hread.
  destruct (st !! chat_history) as [o0|] eqn:Hl; [|discriminate].
  apply (lookup_weaken _ _ _ _ Hl Hsub).
Qed.

Lemma C10_chat_history_witness :
  read_history small_store 1%positive =
    Some [turn "system" "persona"; turn "assistant" "Hello!"; turn "user" "What is SEO?"] /\
  exists o w st',
    get_bot_response_in small_store 1%positive (always (Responds bad_key)) = Some (o, w, st') /\
    get_bot_response
      [turn "system" "persona"; turn "assistant" "Hello!"; turn "user" "What is SEO?"]
      (always (Responds bad_key)) = Some (o, w) /\
    small_store ⊆ st' /\
    st' !! 1%positive = small_store !! 1%positive /\
    read_history st' 1%positive =
      Some [turn "system" "persona"; turn "assistant" "Hello!"; turn "user" "What is SEO?"].
Proof.
  assert (H : read_history small_store 1%positive =
              Some [turn "system" "persona"; turn "assistant" "Hello!";
                    turn "user" "What is SEO?"]) by (vm_compute; reflexivity).
  split; [exact H|].
  apply (C10_chat_history_is_not_mutated small_store 1%positive _ (always (Responds bad_key)) H).
Defined.

(** * Further properties of [get_bot_response] *)

(** ** Runs that begin with retries *)

Lemma retry_loop_prefix k : forall fuel net p retries delay w o,
  (k < fuel)%nat ->
  retries + Z.of_nat k < max_retries ->
  (forall i, (i < k)%nat -> verdict_at net p retries w i = Retry) ->
  verdict_at net p retries w k = Finish o ->
  retry_loop fuel net p retries delay w =
  Some (o, {| requests := (requests w ++ replicate (S k) p)%list;
              sleeps := (sleeps w ++ backoff delay k)%list |}).
Proof.
  induction k as [|k IH]; intros fuel net p retries delay w o Hfuel Hlt Hretry Hlast;
    (destruct fuel as [|fuel]; [lia|]); rewrite retry_loop_unfold by lia.
  - unfold verdict_at in Hlast. rewrite Nat.add_0_r, Z.add_0_r in Hlast. rewrite Hlast.
    cbn [backoff replicate]. now rewrite app_nil_r.
  - pose proof (Hretry 0%nat ltac:(lia)) as H0. unfold verdict_at in H0.
    rewrite Nat.add_0_r, Z.add_0_r in H0. rewrite H0.
    rewrite (IH fuel net p (retries + 1) (delay * 2) (sleep delay (sent p w)) o).
    + cbn [sleep sent requests sleeps replicate backoff]. now rewrite <- !app_assoc.
    + lia.
    + lia.
    + intros i Hi. rewrite verdict_at_next. apply Hretry. lia.
    + now rewrite verdict_at_next.
Qed.

Lemma retry_loop_all_retry n : forall fuel net p retries delay w,
  (n <= fuel)%nat ->
  retries + Z.of_nat n = max_retries ->
  (forall i, (i < n)%nat -> verdict_at net p retries w i = Retry) ->
  retry_loop fuel net p retries delay w =
  Some (Raised retries_exhausted,
        {| requests := (requests w ++ replicate n p)%list;
           sleeps := (sleeps w ++ backoff delay n)%list |}).
Proof.
  induction n as [|n IH]; intros fuel net p retries delay w Hfuel Hsum Hretry.
  - rewrite retry_loop_done by lia. cbn [replicate backoff]. rewrite !app_nil_r.
    now destruct w.
  - destruct fuel as [|fuel]; [lia|]. rewrite retry_loop_unfold by lia.
    pose proof (Hretry 0%nat ltac:(lia)) as H0. unfold verdict_at in H0.
    rewrite Nat.add_0_r, Z.add_0_r in H0. rewrite H0.
    rewrite (IH fuel net p (retries + 1) (delay * 2) (sleep delay (sent p w))).
    + cbn [sleep sent requests sleeps replicate backoff]. now rewrite <- !app_assoc.
    + lia.
    + lia.
    + intros i Hi. rewrite verdict_at_next. apply Hretry. lia.
Qed.

Lemma verdict_of_transient r retries :
  transient r -> retries < max_retries - 1 -> verdict_of r retries = Retry.
Proof.
  intros Ht Hlt. destruct r as [response|e].
  - now apply verdict_of_retryable.
  - rewrite verdict_of_fails. apply Z.ltb_lt in Hlt. now rewrite Hlt.
Qed.

(** X1: after any mix of up to 4 transient replies (network failures, 429,
    5xx), a 2xx reply with a well-formed body makes the call return its text
    and sources; it has then posted one request per reply and slept the first
    [k] delays of the schedule 1, 2, 4, 8. *)
Theorem X1_answer_after_transient_replies chat_history net k r result v sources :
  (k <= 4)%nat ->
  (forall i, (i < k)%nat -> transient (net i (build_payload chat_history))) ->
  net k (build_payload chat_history) = Responds r ->
  200 <= status_code r < 300 ->
  json_body r = Some result ->
  handle_ok result = Ok (v, sources) ->
  get_bot_response chat_history net =
  Some (Returned (Text v) sources,
        {| requests := replicate (S k) (build_payload chat_history);
           sleeps := take k [1; 2; 4; 8] |}).
Proof.
  intros Hk Htrans Hnet Hst Hbody Hok. unfold get_bot_response.
  rewrite (retry_loop_prefix k _ _ _ _ _ _ (Returned (Text v) sources)).
  - cbn [initial_world requests sleeps app]. do 2 f_equal. f_equal.
    do 5 (destruct k as [|k]; [reflexivity|]). lia.
  - change (Z.to_nat max_retries) with 5%nat. lia.
  - unfold max_retries. lia.
  - intros i Hi. unfold verdict_at. cbn [initial_world requests length Nat.add].
    apply verdict_of_transient; [now apply Htrans | unfold max_retries; lia].
  - unfold verdict_at. cbn [initial_world requests length Nat.add]. rewrite Hnet.
    rewrite (verdict_of_answer r _ result) by (try apply ok_2xx; assumption).
    now rewrite Hok.
Qed.

Lemma X1_answer_after_transient_witness :
  get_bot_response [] flaky_then_fine =
  Some (Returned (Text (JStr "Use SEO.")) [],
        {| requests := replicate 4 (build_payload []); sleeps := [1; 2; 4] |}).
Proof.
  apply (X1_answer_after_transient_replies [] flaky_then_fine 3
           {| status_code := 200; json_body := Some (answer_body "Use SEO.") |}
           (answer_body "Use SEO.") (JStr "Use SEO.") []);
    try reflexivity; try (cbn; lia).
  intros i Hi. do 3 (destruct i as [|i]; [cbn; unfold retryable_status; cbn; auto; lia|]).
  lia.
Defined.

(** X2: when each of the five replies is transient, the call raises after
    exactly 5 requests, and what it raises and how long it slept depend on the
    fifth reply alone: a network failure is re-raised at once after the
    sleeps 1, 2, 4, 8, whereas a 429 or 5xx status is followed by one more
    sleep of 16 seconds before the max-retries exception is raised. *)
Theorem X2_five_transient_replies chat_history net :
  (forall i, (i < 5)%nat -> transient (net i (build_payload chat_history))) ->
  get_bot_response chat_history net =
  Some (match net 4%nat (build_payload chat_history) with
        | Fails e =>
            (Raised (RequestException e),
             {| requests := replicate 5 (build_payload chat_history);
                sleeps := [1; 2; 4; 8] |})
        | Responds _ =>
            (Raised retries_exhausted,
             {| requests := replicate 5 (build_payload chat_history);
                sleeps := [1; 2; 4; 8; 16] |})
        end).
Proof.
  intros Htrans. unfold get_bot_response. change (Z.to_nat max_retries) with 5%nat.
  assert (Hfirst : forall i, (i < 4)%nat ->
            verdict_at net (build_payload chat_history) 0 initial_world i = Retry).
  { intros i Hi. unfold verdict_at. cbn [initial_world requests length Nat.add].
    apply verdict_of_transient; [apply Htrans; lia | unfold max_retries; lia]. }
  pose proof (Htrans 4%nat ltac:(lia)) as H4.
  destruct (net 4%nat (build_payload chat_history)) as [r|e] eqn:Hnet.
  - rewrite (retry_loop_all_retry 5); [reflexivity | lia | reflexivity |].
    intros i Hi. destruct (Nat.eq_dec i 4%nat) as [->|Hne]; [|apply Hfirst; lia].
    unfold verdict_at. cbn [initial_world requests length Nat.add]. rewrite Hnet.
    now apply verdict_of_retryable.
  - rewrite (retry_loop_prefix 4 _ _ _ _ _ _ (Raised (RequestException e)));
      [reflexivity | lia | unfold max_retries; lia | exact Hfirst |].
    unfold verdict_at. cbn [initial_world requests length Nat.add]. rewrite Hnet.
    now rewrite verdict_of_fails.
Qed.

Lemma X2_five_transient_witness :
  get_bot_response [] down_then_unreachable =
  Some (Raised (RequestException (ConnectionError "connection refused")),
        {| requests := replicate 5 (build_payload []); sleeps := [1; 2; 4; 8] |}).
Proof.
  apply (X2_five_transient_replies [] down_then_unreachable).
  intros i Hi.
  do 5 (destruct i as [|i]; [cbn; unfold retryable_status; cbn; auto; lia|]). lia.
Defined.

(** X3: whatever the transport does, the sleeps of a call are the first [k]
    delays of 1, 2, 4, 8, 16: one after each request but the last, or one
    after each of the 5 requests when the call ends with the max-retries
    exception; so a call never sleeps more than 31 seconds in total. *)
Theorem X3_sleeps_follow_the_schedule chat_history net o w :
  get_bot_response chat_history net = Some (o, w) ->
  exists k,
    sleeps w = take k [1; 2; 4; 8; 16] /\
    (length (requests w) = S k /\ (k <= 4)%nat \/
     length (requests w) = 5%nat /\ k = 5%nat /\ o = Raised retries_exhausted) /\
    0 <= total_sleep w <= 31.
Proof.
  intros Hrun. apply get_bot_response_run in Hrun.
  destruct Hrun as (n & Hreq & Hn & Hend). rewrite Hreq, length_replicate.
  unfold total_sleep.
  destruct Hend as [(m & -> & _ & _ & Hsl) | (Hsum & -> & _ & Hsl)];
    cbn [initial_world sleeps app] in Hsl; rewrite Hsl.
  - exists m. assert (Hm : (m <= 4)%nat) by lia.
    do 5 (destruct m as [|m]; [cbn; repeat split; auto; lia|]). lia.
  - unfold max_retries in Hsum. assert (n = 5%nat) as -> by lia.
    exists 5%nat. cbn. repeat split; auto; lia.
Qed.

Lemma X3_sleeps_witness :
  exists k,
    sleeps {| requests := replicate 4 (build_payload []); sleeps := [1; 2; 4] |} =
      take k [1; 2; 4; 8; 16] /\
    (length (requests {| requests := replicate 4 (build_payload []); sleeps := [1; 2; 4] |})
       = S k /\ (k <= 4)%nat \/
     length (requests {| requests := replicate 4 (build_payload []); sleeps := [1; 2; 4] |})
       = 5%nat /\ k = 5%nat /\
     Returned (Text (JStr "Use SEO.")) [] = Raised retries_exhausted) /\
    0 <= total_sleep {| requests := replicate 4 (build_payload []); sleeps := [1; 2; 4] |} <= 31.
Proof.
  apply (X3_sleeps_follow_the_schedule [] flaky_then_fine
           (Returned (Text (JStr "Use SEO.")) [])
           {| requests := replicate 4 (build_payload []); sleeps := [1; 2; 4] |}).
  reflexivity.
Defined.

(** ** The payload, for any history *)

Lemma slice_last_short {A : Type} (n : nat) (l : list A) :
  (length l <= n)%nat -> slice_last n l = l.
Proof.
  intros H. unfold slice_last. destruct n; [reflexivity|].
  replace (length l - S n)%nat with 0%nat by lia. apply drop_0.
Qed.

Lemma slice_last_length {A : Type} (n : nat) (l : list A) :
  (0 < n)%nat -> (length (slice_last n l) <= n)%nat.
Proof.
  intros H. unfold slice_last. destruct n; [lia|]. rewrite length_drop. lia.
Qed.

Lemma slice_last_suffix {A : Type} (n : nat) (l : list A) :
  slice_last n l `suffix_of` l.
Proof. destruct n; [reflexivity | apply suffix_drop]. Qed.

(** X4: a history with at most 10 non-system turns is sent whole: every
    request carries the synthetic system turn followed by all the non-system
    turns; for the empty history that is the system turn alone. *)
Theorem X4_short_history_is_sent_whole chat_history net o w :
  (length (non_system chat_history) <= 10)%nat ->
  get_bot_response chat_history net = Some (o, w) ->
  requests w <> [] /\
  Forall (fun p => contents p = system_message :: non_system chat_history) (requests w) /\
  (chat_history = [] -> Forall (fun p => contents p = [system_message]) (requests w)).
Proof.
  intros Hlen Hrun. destruct (get_bot_response_posts _ _ _ _ Hrun) as (n & -> & _).
  split; [discriminate|]. split.
  - apply Forall_replicate. cbn [build_payload contents app]. f_equal.
    now apply slice_last_short.
  - intros ->. apply Forall_replicate. reflexivity.
Qed.

Lemma X4_short_history_witness :
  requests (once (build_payload three_turns)) <> [] /\
  Forall (fun p => contents p = system_message :: non_system three_turns)
         (requests (once (build_payload three_turns))) /\
  (three_turns = [] ->
   Forall (fun p => contents p = [system_message]) (requests (once (build_payload three_turns)))).
Proof.
  apply (X4_short_history_is_sent_whole three_turns (always (Responds bad_key))
           (Returned (Apology (Exception (JStr "bad key"))) [])
           (once (build_payload three_turns))).
  - vm_compute. lia.
  - reflexivity.
Defined.

(** X5: whatever the history and the transport, every request of a call
    carries the same payload: the synthetic system turn first, then at most
    10 turns, none of them a system turn, which are the tail end of the
    history's non-system turns; and the search tool is attached to it. *)
Theorem X5_payload_has_one_system_turn chat_history net o w :
  get_bot_response chat_history net = Some (o, w) ->
  Forall (fun p =>
            tools p = [google_search] /\
            exists recent,
              contents p = system_message :: recent /\
              (length recent <= 10)%nat /\
              Forall (fun msg => role msg <> "system") recent /\
              recent `suffix_of` non_system chat_history)
         (requests w).
Proof.
  intros Hrun. destruct (get_bot_response_posts _ _ _ _ Hrun) as (n & -> & _).
  apply Forall_replicate. split; [reflexivity|].
  exists (recent_history_payload chat_history). split; [reflexivity|].
  unfold recent_history_payload. fold (non_system chat_history).
  split; [apply slice_last_length; unfold max_history_length; lia|].
  assert (Hsuf := slice_last_suffix max_history_length (non_system chat_history)).
  split; [|exact Hsuf].
  destruct Hsuf as (earlier & Heq).
  assert (Hall : Forall (fun msg => role msg <> "system") (non_system chat_history)).
  { unfold non_system. apply list.Forall_forall. intros msg Hin.
    now apply list_elem_of_filter in Hin as [Hrole _]. }
  rewrite Heq in Hall. now apply Forall_app in Hall as [_ Hall].
Qed.

Lemma X5_payload_witness :
  Forall (fun p =>
            tools p = [google_search] /\
            exists recent,
              contents p = system_message :: recent /\
              (length recent <= 10)%nat /\
              Forall (fun msg => role msg <> "system") recent /\
              recent `suffix_of` non_system twelve_turns)
         (replicate 5 (build_payload twelve_turns)).
Proof.
  apply (X5_payload_has_one_system_turn twelve_turns (always (Responds server_error))
           (Raised retries_exhausted)
           {| requests := replicate 5 (build_payload twelve_turns);
              sleeps := [1; 2; 4; 8; 16] |}).
  reflexivity.
Defined.

(** ** Returned texts, default messages, and attributions that cannot be read *)

Lemma handle_ok_text result v sources :
  handle_ok result = Ok (v, sources) -> extract_text result = Ok v /\ truthy v = true.
Proof.
  unfold handle_ok, extract_text.
  destruct (get_candidate result) as [candidate|e]; cbn [bind]; [|discriminate].
  destruct (get_text candidate) as [t|e]; cbn [bind]; [|discriminate].
  destruct (truthy t) eqn:Ht; cbn [negb]; [|discriminate].
  destruct (get_sources candidate) as [srcs|e]; cbn [bind]; [|discriminate].
  intros [= <- _]. now split.
Qed.

Lemma last_verdict chat_history net ans sources w :
  get_bot_response chat_history net = Some (Returned ans sources, w) ->
  verdict_of (net (length (requests w) - 1)%nat (build_payload chat_history))
             (Z.of_nat (length (requests w) - 1)) = Finish (Returned ans sources).
Proof.
  intros Hrun. apply get_bot_response_run in Hrun.
  destruct Hrun as (n & Hreq & _ & [(m & -> & _ & Hv & _) | (_ & Hex & _)]);
    [|discriminate Hex].
  rewrite Hreq, length_replicate.
  replace (S m - 1)%nat with m by lia. exact Hv.
Qed.

(** X6: a text returned by [get_bot_response] is never empty or missing: it
    is the value found at [candidates[0].content.parts[0].text] of the body
    of the last reply, and that value is truthy. *)
Theorem X6_returned_text_is_not_empty chat_history net v sources w :
  get_bot_response chat_history net = Some (Returned (Text v) sources, w) ->
  truthy v = true /\ ~ empty_or_missing v /\
  exists r result,
    net (length (requests w) - 1)%nat (build_payload chat_history) = Responds r /\
    json_body r = Some result /\
    extract_text result = Ok v.
Proof.
  intros Hrun. apply last_verdict, verdict_of_returned in Hrun.
  destruct Hrun as [(e & He & _) | (r & result & v' & Hr & Hbody & [= <-] & Hok)];
    [discriminate He|].
  apply handle_ok_text in Hok as [Hext Htruthy].
  split; [exact Htruthy|]. split; [now apply truthy_not_empty_or_missing|].
  exists r, result. auto.
Qed.

Lemma X6_returned_text_witness :
  truthy (JStr "Use SEO.") = true /\ ~ empty_or_missing (JStr "Use SEO.") /\
  exists r result,
    always (Responds grounded)
      (length (requests (once (build_payload []))) - 1)%nat (build_payload []) = Responds r /\
    json_body r = Some result /\
    extract_text result = Ok (JStr "Use SEO.").
Proof.
  apply (X6_returned_text_is_not_empty [] (always (Responds grounded)) (JStr "Use SEO.")
           two_sources (once (build_payload []))).
  reflexivity.
Defined.

(** X7: when a 4xx reply other than 429 has a JSON object body that names no
    message (no [error] entry, or an [error] dict without [message]), the
    apology carries the default wording with the status code:
    "Sorry, I encountered an error: HTTP error! status: <code>". *)
Theorem X7_client_error_without_message chat_history net o w k r fields :
  get_bot_response chat_history net = Some (o, w) ->
  (k < length (requests w))%nat ->
  net k (build_payload chat_history) = Responds r ->
  400 <= status_code r < 500 -> status_code r <> 429 ->
  json_body r = Some (JObj fields) ->
  (dict_lookup fields "error" = None \/
   exists details, dict_lookup fields "error" = Some (JObj details) /\
                   dict_lookup details "message" = None) ->
  exists a,
    o = Returned a [] /\
    apology_text a =
      Some ("Sorry, I encountered an error: HTTP error! status: " ++ decimal (status_code r)).
Proof.
  intros Hrun Hk Hnet Hst Hne Hbody Hmsg.
  pose proof (verdict_of_client_error r (Z.of_nat k) (JObj fields) Hst Hne Hbody) as Hv.
  assert (Hdefault : error_message (JObj fields) (status_code r) =
                     Ok (http_error_default (status_code r))).
  { unfold error_message, py_get.
    destruct Hmsg as [-> | (details & -> & Hd)]; cbn [bind dict_lookup]; [reflexivity|].
    now rewrite Hd. }
  rewrite Hdefault, <- Hnet in Hv. cbn [apologise] in Hv.
  destruct (finishing_reply _ _ _ _ k _ Hrun Hk Hv) as (-> & _).
  eexists. split; reflexivity.
Qed.

Lemma X7_client_error_witness :
  exists a,
    Returned (Apology (Exception (JStr "HTTP error! status: 404"))) [] = Returned a [] /\
    apology_text a = Some "Sorry, I encountered an error: HTTP error! status: 404".
Proof.
  apply (X7_client_error_without_message [] (always (Responds not_found))
           (Returned (Apology (Exception (JStr "HTTP error! status: 404"))) [])
           (once (build_payload [])) 0%nat not_found [("error", JObj [("code", JInt 404)])]);
    try reflexivity; try (cbn; lia).
  right. exists [("code", JInt 404)]. split; reflexivity.
Defined.

Lemma has_web_uri_title_inspectable attr :
  has_web_uri_title attr =
  if inspectable attr then Ok (complete attr) else Err AttributeError.
Proof.
  unfold has_web_uri_title, inspectable, complete, web_field.
  destruct attr as [| | | | | |fields]; try reflexivity. cbn [py_get].
  destruct (dict_lookup fields "web") as [web|]; cbn [bind truthy]; [|reflexivity].
  destruct web as [|[|]|n|f|s|items|wf]; try reflexivity.
  - cbn [truthy negb]. now destruct (n =? 0).
  - now destruct f.
  - cbn [truthy]. now destruct (String.eqb s "").
  - now destruct items.
  - destruct wf as [|kv wf']; [reflexivity|].
    remember (kv :: wf') as wf eqn:Hwf. rewrite Hwf at 1. cbn [truthy py_get].
    destruct (dict_lookup wf "uri") as [u|]; cbn [bind truthy]; [|reflexivity].
    destruct (truthy u); [|reflexivity].
    now destruct (dict_lookup wf "title").
Qed.

Lemma collect_sources_inspectable attrs :
  collect_sources attrs =
  if forallb inspectable attrs
  then Ok (map source_of (List.filter complete attrs))
  else Err AttributeError.
Proof.
  induction attrs as [|attr rest IH]; [reflexivity|].
  cbn [collect_sources forallb List.filter].
  pose proof (has_web_uri_title_inspectable attr) as Hattr.
  destruct (inspectable attr); cbn [andb]; rewrite Hattr; cbn [bind]; [|reflexivity].
  destruct (complete attr) eqn:Hc; [|exact IH].
  apply has_web_uri_title_true in Hattr as [_ ->]. cbn [bind].
  rewrite IH. now destruct (forallb inspectable rest).
Qed.

(** X8: a single attribution that cannot be inspected (one that is not a
    dict, or whose [web] entry is truthy without being a dict) costs the whole
    answer: although the reply is a 2xx with a non-empty text, the call
    returns an apology for the attribute error with no source.  When every
    attribution can be inspected the call returns the text with the complete
    attributions as sources. *)
Theorem X8_one_unreadable_attribution_loses_the_answer
    chat_history net o w k r result candidate v attrs :
  get_bot_response chat_history net = Some (o, w) ->
  (k < length (requests w))%nat ->
  net k (build_payload chat_history) = Responds r ->
  200 <= status_code r < 300 ->
  json_body r = Some result ->
  get_candidate result = Ok candidate ->
  get_text candidate = Ok v -> truthy v = true ->
  grounding_attributions candidate = Some (JArr attrs) ->
  o = if forallb inspectable attrs
      then Returned (Text v) (map source_of (List.filter complete attrs))
      else Returned (Apology AttributeError) [].
Proof.
  intros Hrun Hk Hnet Hst Hbody Hcand Htext Htruthy Hattrs.
  pose proof (verdict_of_answer r (Z.of_nat k) result (ok_2xx r Hst) Hbody) as Hv.
  rewrite <- Hnet in Hv.
  destruct (finishing_reply _ _ _ _ k _ Hrun Hk Hv) as (-> & _).
  unfold handle_ok. rewrite Hcand. cbn [bind]. rewrite Htext. cbn [bind].
  rewrite Htruthy. cbn [negb].
  rewrite (get_sources_of_attributions _ _ Hattrs), collect_sources_inspectable.
  now destruct (forallb inspectable attrs).
Qed.

Lemma X8_unreadable_attribution_witness :
  get_bot_response [] (always (Responds half_grounded)) =
    Some (Returned (Apology AttributeError) [], once (build_payload [])) /\
  Returned (Apology AttributeError) [] =
    if forallb inspectable [attribution (JStr "https://a.example") (JStr "A"); JNull]
    then Returned (Text (JStr "Use SEO."))
           (map source_of
              (List.filter complete [attribution (JStr "https://a.example") (JStr "A"); JNull]))
    else Returned (Apology AttributeError) [].
Proof.
  split; [reflexivity|].
  apply (X8_one_unreadable_attribution_loses_the_answer [] (always (Responds half_grounded))
           (Returned (Apology AttributeError) []) (once (build_payload [])) 0%nat
           half_grounded (JObj [("candidates", JArr [half_grounded_candidate])])
           half_grounded_candidate (JStr "Use SEO."));
    try reflexivity; cbn; lia.
Defined.

(** * The chat session (lines 117-178) *)

(** The script keeps the conversation in [st.session_state.messages], a list
    of dicts [{"role": .., "content": .., "sources": ..}] whose [sources] key
    is present only on the assistant turns it appends.  The rendering calls
    of Streamlit ([st.markdown], [st.error], ...) are left out and taken not
    to raise. *)

(** What a [content] holds: a string written in the script or typed by the
    user, or the first component of what [get_bot_response] returned (for a
    raised exception, the string the [except] clause of line 176 formats). *)
Inductive content : Type :=
| Literal (s : string)
| Reply (a : answer).

Record chat_message : Type :=
  { turn_role : string; turn_content : content; turn_sources : option (list source) }.

Definition greeting : string :=
  "Hello! I'm your AI Digital Marketing strategist. How can I help you today? Feel free to ask about SEO, content strategy, social media, ad campaigns, or the latest market trends.".

(** Lines 118-123. *)
Definition initial_messages : list chat_message :=
  [ {| turn_role := "system"; turn_content := Literal SYSTEM_PROMPT; turn_sources := None |};
    {| turn_role := "assistant"; turn_content := Literal greeting; turn_sources := None |} ].

Definition user_turn (prompt : string) : chat_message :=
  {| turn_role := "user"; turn_content := Literal prompt; turn_sources := None |}.

Definition assistant_turn (a : answer) (sources : list source) : chat_message :=
  {| turn_role := "assistant"; turn_content := Reply a; turn_sources := Some sources |}.

(** The messages the loop of lines 126-136 renders: all but the system ones. *)
Definition displayed (messages : list chat_message) : list chat_message :=
  filter (fun message => turn_role message <> "system") messages.

(** The roles of a conversation after [n] prompts. *)
Definition alternating (n : nat) : list string :=
  "system" :: "assistant" :: concat (replicate n ["user"; "assistant"]).

(** A rendering of answers to strings for the examples only: a string text
    as it is, an apology the program worded as its wording.  On the other
    answers (an exception worded by the interpreter, a text that is not a
    string) the string is a stand-in, not what the script sends; no example
    uses it there. *)
Definition shown (a : answer) : string :=
  match a with
  | Text (JStr s) => s
  | _ =>
      match apology_text a with
      | Some s => s
      | None => "Sorry, I encountered an error."
      end
  end.

Definition asked_once : list chat_message :=
  (initial_messages ++ [user_turn "What is SEO?"])%list.

Definition refused_once : list chat_message :=
  (initial_messages ++
   [user_turn "Hi"; assistant_turn (Apology (Exception (JStr "bad key"))) []])%list.

Section Session.

(** The payload model keeps the text of a turn as a string; this names the
    string an answer is when it is put on the wire. *)
Variable str_of_answer : answer -> string.

Definition wire_text (c : content) : string :=
  match c with
  | Literal s => s
  | Reply a => str_of_answer a
  end.

(** Lines 152-155. *)
Definition api_history (messages : list chat_message) : list message :=
  map (fun msg => {| role := turn_role msg;
                     parts := [ {| text := wire_text (turn_content msg) |} ] |})
      messages.

(** Lines 139-178, for the value [prompt] of [st.chat_input]: nothing
    happens when it is falsy; otherwise the user turn is appended, the model
    is asked, and an assistant turn is appended, by line 169 when
    [get_bot_response] returned and by line 178 when it raised. *)
Definition on_prompt (messages : list chat_message) (prompt : string) (net : transport)
  : option (list chat_message * world) :=
  match prompt with
  | EmptyString => Some (messages, initial_world)
  | String _ _ =>
      let messages1 := (messages ++ [user_turn prompt])%list in
      match get_bot_response (api_history messages1) net with
      | Some (Returned bot_response sources, w) =>
          Some ((messages1 ++ [assistant_turn bot_response sources])%list, w)
      | Some (Raised e, w) =>
          Some ((messages1 ++ [assistant_turn (Apology e) []])%list, w)
      | None => None
      end
  end.

(** A session: the script is run once per input, each run against the
    network as it is then. *)
Fixpoint session (inputs : list (string * transport)) (messages : list chat_message)
  : option (list chat_message) :=
  match inputs with
  | [] => Some messages
  | (prompt, net) :: rest =>
      match on_prompt messages prompt net with
      | Some (messages', _) => session rest messages'
      | None => None
      end
  end.

(** The number of inputs that are prompts. *)
Definition prompts (inputs : list (string * transport)) : nat :=
  length (List.filter (fun i => negb (String.eqb (fst i) "")) inputs).

Lemma on_prompt_appends messages prompt net :
  prompt <> "" ->
  exists a sources w,
    on_prompt messages prompt net =
      Some ((messages ++ [user_turn prompt; assistant_turn a sources])%list, w) /\
    (get_bot_response (api_history (messages ++ [user_turn prompt])) net =
       Some (Returned a sources, w) \/
     exists e, get_bot_response (api_history (messages ++ [user_turn prompt])) net =
                 Some (Raised e, w) /\ a = Apology e /\ sources = []).
Proof.
  intros Hp. unfold on_prompt. destruct prompt as [|c prompt]; [congruence|].
  destruct (get_bot_response_total
              (api_history (messages ++ [user_turn (String c prompt)])) net)
    as (o & w & Hrun).
  rewrite Hrun. destruct o as [a sources|e].
  - exists a, sources, w. rewrite <- app_assoc. split; [reflexivity | now left].
  - exists (Apology e), [], w. rewrite <- app_assoc. split; [reflexivity|].
    right. now exists e.
Qed.

Lemma filter_all_kept {A : Type} (P : A -> Prop) `{forall x, Decision (P x)} (l : list A) :
  Forall P l -> filter P l = l.
Proof.
  induction 1 as [|x l Hx _ IH]; [reflexivity|].
  rewrite filter_cons, decide_True by assumption. now rewrite IH.
Qed.

Lemma slice_last_snoc {A : Type} (n : nat) (l : list A) (x : A) :
  slice_last (S (S n)) (l ++ [x]) = (slice_last (S n) l ++ [x])%list.
Proof.
  unfold slice_last. rewrite length_app. cbn [length].
  replace (length l + 1 - S (S n))%nat with (length l - S n)%nat by lia.
  apply drop_app_le. lia.
Qed.

Lemma api_history_snoc messages prompt :
  non_system (api_history (messages ++ [user_turn prompt])) =
  (non_system (api_history messages) ++ [turn "user" prompt])%list.
Proof.
  unfold api_history, non_system. rewrite map_app, filter_app. reflexivity.
Qed.

(** X9: a prompt makes the conversation grow by exactly two turns, the
    user's and one assistant turn with a source list, whether the model
    answered or the call failed; the turns already there are kept as they
    are; every stored source has a title and a uri; and the exchange cost
    between 1 and 5 requests. *)
Theorem X9_a_prompt_appends_two_turns messages prompt net :
  prompt <> "" ->
  exists a sources w,
    on_prompt messages prompt net =
      Some ((messages ++ [user_turn prompt; assistant_turn a sources])%list, w) /\
    Forall has_title_and_uri sources /\
    (1 <= length (requests w) <= 5)%nat.
Proof.
  intros Hp. destruct (on_prompt_appends messages prompt net Hp)
    as (a & sources & w & Hon & Hrun).
  exists a, sources, w. split; [exact Hon|].
  destruct Hrun as [Hrun | (e & Hrun & -> & ->)].
  - split.
    + apply last_verdict, verdict_of_returned in Hrun.
      destruct Hrun as [(e & _ & ->) | (r & result & v & _ & _ & _ & Hok)]; [constructor|].
      apply handle_ok_sources in Hok as (candidate & _ & Hsrc).
      now apply get_sources_has_title_and_uri in Hsrc.
    + destruct (get_bot_response_posts _ _ _ _ Hrun) as (n & -> & Hn).
      rewrite length_replicate. lia.
  - split; [constructor|].
    destruct (get_bot_response_posts _ _ _ _ Hrun) as (n & -> & Hn).
    rewrite length_replicate. lia.
Qed.

(** X10: when the network is down or the service keeps answering 429 or 5xx
    for all five attempts, the exception [get_bot_response] raises is caught
    by the script: the conversation still gains the user turn and an
    assistant turn, whose content is the apology for that exception and whose
    source list is empty. *)
Theorem X10_an_outage_is_stored_as_an_apology messages prompt net :
  prompt <> "" ->
  (forall i, (i < 5)%nat ->
     transient (net i (build_payload (api_history (messages ++ [user_turn prompt]))))) ->
  exists e w,
    get_bot_response (api_history (messages ++ [user_turn prompt])) net = Some (Raised e, w) /\
    on_prompt messages prompt net =
      Some ((messages ++ [user_turn prompt; assistant_turn (Apology e) []])%list, w).
Proof.
  intros Hp Htrans.
  destruct (on_prompt_appends messages prompt net Hp) as (a & sources & w & Hon & Hrun).
  destruct Hrun as [Hrun | (e & Hrun & -> & ->)]; [exfalso | now exists e, w].
  pose proof (get_bot_response_run _ _ _ _ Hrun) as (n & _ & Hn & Hend).
  destruct Hend as [(m & -> & _ & Hlast & _) | (_ & Hex & _)]; [|discriminate Hex].
  unfold verdict_at in Hlast. cbn [initial_world requests length Nat.add] in Hlast.
  rewrite Z.add_0_l in Hlast. pose proof (Htrans m ltac:(lia)) as Hm.
  destruct (Z.ltb_spec (Z.of_nat m) (max_retries - 1)) as [Hlt|Hge].
  - rewrite verdict_of_transient in Hlast by assumption. discriminate.
  - destruct (net m _) as [r|e].
    + rewrite verdict_of_retryable in Hlast by exact Hm. discriminate.
    + rewrite verdict_of_fails in Hlast. apply Z.ltb_ge in Hge. rewrite Hge in Hlast.
      discriminate.
Qed.

(** X11: every request posted for a prompt ends with that prompt: the last
    turn of its contents is the user turn just typed, whatever the
    conversation held before. *)
Theorem X11_the_request_ends_with_the_prompt messages prompt net messages' w :
  prompt <> "" ->
  on_prompt messages prompt net = Some (messages', w) ->
  requests w <> [] /\
  Forall (fun p => last (contents p) = Some (turn "user" prompt)) (requests w).
Proof.
  intros Hp Hon. destruct (on_prompt_appends messages prompt net Hp)
    as (a & sources & w0 & Hon' & Hrun).
  rewrite Hon' in Hon. injection Hon as <- <-.
  assert (Hposts : exists o, get_bot_response (api_history (messages ++ [user_turn prompt])) net
                             = Some (o, w0)).
  { destruct Hrun as [Hrun | (e & Hrun & _)]; eauto. }
  destruct Hposts as (o & Hposts).
  destruct (get_bot_response_posts _ _ _ _ Hposts) as (n & -> & _).
  split; [discriminate|]. apply Forall_replicate.
  cbn [build_payload contents app]. unfold recent_history_payload.
  fold (non_system (api_history (messages ++ [user_turn prompt]))).
  rewrite api_history_snoc. unfold max_history_length. rewrite slice_last_snoc.
  rewrite app_comm_cons. apply last_snoc.
Qed.

Lemma session_roles inputs : forall messages,
  exists messages',
    session inputs messages = Some messages' /\
    messages `prefix_of` messages' /\
    map turn_role messages' =
    (map turn_role messages ++ concat (replicate (prompts inputs) ["user"; "assistant"]))%list.
Proof.
  induction inputs as [|[prompt net] rest IH]; intros messages.
  - exists messages. cbn. rewrite app_nil_r. repeat split. reflexivity.
  - destruct prompt as [|c prompt].
    + destruct (IH messages) as (ms & Hs & Hpre & Hroles).
      exists ms. split; [exact Hs|]. split; [exact Hpre | exact Hroles].
    + destruct (on_prompt_appends messages (String c prompt) net ltac:(discriminate))
        as (a & sources & w & Hon & _).
      destruct (IH (messages ++ [user_turn (String c prompt); assistant_turn a sources])%list)
        as (ms & Hs & Hpre & Hroles).
      exists ms. cbn [session]. rewrite Hon. split; [exact Hs|]. split.
      * etrans; [|exact Hpre]. now apply prefix_app_r.
      * rewrite Hroles, map_app, <- app_assoc. reflexivity.
Qed.

Lemma alternating_length (messages : list chat_message) n :
  map turn_role messages = alternating n -> length messages = (2 + 2 * n)%nat.
Proof.
  intros Hroles. rewrite <- (length_map turn_role), Hroles. unfold alternating.
  assert (Hlen : length (concat (replicate n ["user"; "assistant"])) = (2 * n)%nat).
  { clear Hroles. induction n as [|n IHn]; [reflexivity|].
    cbn [replicate concat app length]. rewrite IHn. lia. }
  cbn [length]. rewrite Hlen. lia.
Qed.

Lemma alternating_displayed (messages : list chat_message) n :
  map turn_role messages = alternating n -> displayed messages = drop 1 messages.
Proof.
  unfold alternating. intros Hroles.
  assert (Hrest : forall k, Forall (fun r => r <> "system")
                              (concat (replicate k ["user"; "assistant"]))).
  { induction k as [|k IHk]; [constructor|].
    cbn [replicate concat app]. repeat (constructor; [discriminate|]). exact IHk. }
  destruct messages as [|m ms]; [discriminate Hroles|].
  cbn [map] in Hroles. injection Hroles as Hm Hroles.
  unfold displayed. rewrite filter_cons, decide_False by (intros H; now apply H).
  cbn [drop]. rewrite drop_0. apply filter_all_kept.
  assert (Hall : Forall (fun r => r <> "system") (map turn_role ms)).
  { rewrite Hroles. constructor; [discriminate | apply Hrest]. }
  apply list.Forall_forall. intros x Hx. rewrite list.Forall_forall in Hall.
  apply Hall. apply list_elem_of_fmap. now exists x.
Qed.

(** X12: however many inputs a session has seen and whatever the network
    did, its conversation begins with the two initial messages and goes on
    with one user turn and one assistant turn per prompt, in that order:
    the only system message is the first one, and what is displayed is every
    message but that one. *)
Theorem X12_a_session_alternates_user_and_assistant inputs :
  exists messages,
    session inputs initial_messages = Some messages /\
    initial_messages `prefix_of` messages /\
    map turn_role messages =
      "system" :: "assistant" :: concat (replicate (prompts inputs) ["user"; "assistant"]) /\
    length messages = (2 + 2 * prompts inputs)%nat /\
    displayed messages = drop 1 messages.
Proof.
  destruct (session_roles inputs initial_messages) as (ms & Hs & Hpre & Hroles).
  exists ms. split; [exact Hs|]. split; [exact Hpre|]. split; [exact Hroles|].
  split.
  - now apply alternating_length.
  - now apply (alternating_displayed ms (prompts inputs)).
Qed.

Lemma slice_last_length_min {A : Type} (n : nat) (l : list A) :
  length (slice_last (S n) l) = Nat.min (S n) (length l).
Proof. unfold slice_last. rewrite length_drop. lia. Qed.

Lemma non_system_api_history_length messages :
  length (non_system (api_history messages)) = length (displayed messages).
Proof.
  unfold non_system, displayed, api_history.
  induction messages as [|m ms IH]; [reflexivity|].
  cbn [map]. rewrite !filter_cons. cbn [role].
  destruct (decide (turn_role m <> "system")); cbn [length]; now rewrite IH.
Qed.

(** X13: in a session the request for the next prompt grows with the
    conversation until the window is full: after [n] earlier prompts it
    carries the system turn and [2 * n + 2] others, that is 3, 5, 7, 9 turns
    for the first four prompts, and 11 turns, never more, from the fifth
    prompt on. *)
Theorem X13_request_size_in_a_session inputs messages prompt net messages' w :
  session inputs initial_messages = Some messages ->
  prompt <> "" ->
  on_prompt messages prompt net = Some (messages', w) ->
  requests w <> [] /\
  Forall (fun p => length (contents p) = Nat.min 11 (2 * prompts inputs + 3)) (requests w).
Proof.
  intros Hs Hp Hon.
  destruct (session_roles inputs initial_messages) as (ms & Hs' & _ & Hroles).
  rewrite Hs in Hs'. injection Hs' as <-.
  pose proof (alternating_length _ _ Hroles) as Hlen.
  pose proof (alternating_displayed _ _ Hroles) as Hdisp.
  destruct (on_prompt_appends messages prompt net Hp) as (a & sources & w0 & Hon' & Hrun).
  rewrite Hon' in Hon. injection Hon as <- <-.
  assert (Hposts : exists o, get_bot_response (api_history (messages ++ [user_turn prompt])) net
                             = Some (o, w0)).
  { destruct Hrun as [Hrun | (e & Hrun & _)]; eauto. }
  destruct Hposts as (o & Hposts).
  destruct (get_bot_response_posts _ _ _ _ Hposts) as (n & -> & _).
  split; [discriminate|]. apply Forall_replicate.
  cbn [build_payload contents app length]. unfold recent_history_payload.
  fold (non_system (api_history (messages ++ [user_turn prompt]))).
  unfold max_history_length. rewrite slice_last_length_min, api_history_snoc, length_app.
  rewrite non_system_api_history_length, Hdisp, length_drop, Hlen. cbn [length]. lia.
Qed.

End Session.

(** ** The session on concrete inputs *)

Lemma X9_a_prompt_appends_witness :
  exists a sources w,
    on_prompt shown initial_messages "What is SEO?" (always (Responds grounded)) =
      Some ((initial_messages ++ [user_turn "What is SEO?"; assistant_turn a sources])%list, w) /\
    Forall has_title_and_uri sources /\
    (1 <= length (requests w) <= 5)%nat.
Proof.
  apply (X9_a_prompt_appends_two_turns shown initial_messages "What is SEO?"
           (always (Responds grounded))).
  discriminate.
Defined.

Lemma X10_an_outage_witness :
  exists e w,
    get_bot_response (api_history shown asked_once) (always (Responds server_error)) =
      Some (Raised e, w) /\
    on_prompt shown initial_messages "What is SEO?" (always (Responds server_error)) =
      Some ((initial_messages ++ [user_turn "What is SEO?"; assistant_turn (Apology e) []])%list,
            w).
Proof.
  apply (X10_an_outage_is_stored_as_an_apology shown initial_messages "What is SEO?"
           (always (Responds server_error))).
  - discriminate.
  - intros i _. right. cbn. lia.
Defined.

Lemma X11_the_request_ends_witness :
  requests (once (build_payload (api_history shown asked_once))) <> [] /\
  Forall (fun p => last (contents p) = Some (turn "user" "What is SEO?"))
         (requests (once (build_payload (api_history shown asked_once)))).
Proof.
  apply (X11_the_request_ends_with_the_prompt shown initial_messages "What is SEO?"
           (always (Responds grounded))
           (asked_once ++ [assistant_turn (Text (JStr "Use SEO.")) two_sources])%list
           (once (build_payload (api_history shown asked_once)))).
  - discriminate.
  - vm_compute. reflexivity.
Defined.

Lemma X13_request_size_witness :
  session shown [("Hi", always (Responds bad_key))] initial_messages = Some refused_once /\
  requests (once (build_payload
                    (api_history shown (refused_once ++ [user_turn "What is SEO?"])))) <> [] /\
  Forall (fun p => length (contents p) =
                   Nat.min 11 (2 * prompts [("Hi", always (Responds bad_key))] + 3))
         (requests (once (build_payload
                            (api_history shown (refused_once ++ [user_turn "What is SEO?"]))))).
Proof.
  assert (Hs : session shown [("Hi", always (Responds bad_key))] initial_messages
               = Some refused_once) by (vm_compute; reflexivity).
  split; [exact Hs|].
  apply (X13_request_size_in_a_session shown [("Hi", always (Responds bad_key))]
           refused_once "What is SEO?" (always (Responds grounded))
           ((refused_once ++ [user_turn "What is SEO?"]) ++
            [assistant_turn (Text (JStr "Use SEO.")) two_sources])%list
           (once (build_payload
                    (api_history shown (refused_once ++ [user_turn "What is SEO?"]))))).
  - exact Hs.
  - discriminate.
  - vm_compute. reflexivity.
Defined.
